(** * Compilador Forecast: normalisation, closure and ingestion core

    A shallow embedding of the Python modules [curvas_prod], [pp],
    [marco_cronograma], [marco_modulo] and [marco_parede], together with the
    properties their specification states about them.

    Conventions of the embedding.
    - A Python [float] is an IEEE 754 binary64 value, a [spec_float] of the
      Standard Library at precision 53 and maximal exponent 1024, with its
      infinities, its not-a-number and its two zeros.  Sums, products and
      quotients are the correctly rounded operations of [SpecFloat];
      [float(text)] and [round(x, n)] round the exact decimal value to the
      nearest binary64, ties to even.
    - A missing value ([pd.NA], [NaT], [None]) is [None]; [pd.notna] is also
      false on a not-a-number float.
    - A Python [str] is a [string] whose characters are the code points
      U+0000..U+00FF.
    - An exception is an explicit error result.
    - A [DataFrame] is a list of rows (the default [RangeIndex] is the
      position in the list) plus, where the code inspects them, its column
      labels.
    - A [dict] whose iteration order matters is an association list in
      insertion order; the on-disk parquet cache is a finite map. *)

From stdpp Require Import base list strings gmap.
From Stdlib Require Import ZArith QArith Qround Qabs Lia Lqa List String Ascii.
From Stdlib Require Import Permutation Sorted.
From Stdlib Require Import Floats.SpecFloat DecimalString.
From Stdlib Require OrderedTypeEx.
Import ListNotations.
Close Scope Q_scope.

(* ====================================================================== *)
(** * Python numbers *)
(* ====================================================================== *)

Module PyNum.

Definition prec : Z := 53.
Definition emax : Z := 1024.

(** A Python [float]. *)
Definition float : Type := spec_float.

Definition fadd : float -> float -> float := SFadd prec emax.
Definition fsub : float -> float -> float := SFsub prec emax.
Definition fmul : float -> float -> float := SFmul prec emax.
(** [x / y] for [y] other than zero, where Python raises. *)
Definition fdiv : float -> float -> float := SFdiv prec emax.
Definition fabs : float -> float := SFabs.
(** [a < b], [a <= b] and [a == b]: false when either side is not a number. *)
Definition fltb : float -> float -> bool := SFltb.
Definition fleb : float -> float -> bool := SFleb.
Definition feqb : float -> float -> bool := SFeqb.

Definition is_nan (x : float) : bool :=
  match x with S754_nan => true | _ => false end.

Definition is_finite (x : float) : bool :=
  match x with S754_zero _ | S754_finite _ _ _ => true | _ => false end.

(** The binary64 nearest to [num / den], ties to even, with sign [s]; an
    infinity when the quotient is too large. *)
Definition arredondar64 (s : bool) (num den : positive) : float :=
  SFdiv prec emax (S754_finite s num 0) (S754_finite false den 0).

(** [float(n)] of an [int]. *)
Definition de_int (n : Z) : float := binary_normalize prec emax n 0 false.

(** The float written by a decimal literal [num / den]. *)
Definition literal (num den : positive) : float := arredondar64 false num den.

Definition zero : float := S754_zero false.
Definition um : float := de_int 1.

(** The exact value of the finite float with mantissa [m] and exponent [e]. *)
Definition valor_abs (m : positive) (e : Z) : Q :=
  (inject_Z (Zpos m) * Qpower 2 e)%Q.

(** Nearest integer, ties to the even neighbour. *)
Definition round_half_even (q : Q) : Z :=
  let f := Qfloor q in
  match Qcompare (q - inject_Z f)%Q (1 # 2)%Q with
  | Lt => f
  | Gt => (f + 1)%Z
  | Eq => if Z.even f then f else (f + 1)%Z
  end.

(** [10 ** ndigits]. *)
Definition pow10 (ndigits : nat) : positive := Z.to_pos (10 ^ Z.of_nat ndigits).

(** [round(x, ndigits)] for [0 <= ndigits <= 323]: the exact binary value is
    rounded half-to-even at [ndigits] decimals and the decimal result is
    converted back to the nearest float; the sign is kept, also on a zero
    result; infinities and not-a-number are returned as they are. *)
Definition py_round (x : float) (ndigits : nat) : float :=
  match x with
  | S754_finite s m e =>
      match round_half_even (valor_abs m e * inject_Z (Zpos (pow10 ndigits)))%Q with
      | Zpos k => arredondar64 s k (pow10 ndigits)
      | _ => S754_zero s
      end
  | _ => x
  end.

(** [sum(vals)] as CPython computes it before version 3.12: accumulation
    from the left, starting from [0]. *)
Definition py_sum (vals : list float) : float := fold_left fadd vals zero.

(** One turn of the float loop of [sum] from CPython 3.12 on (Neumaier's
    compensated summation) over the running sum and the compensation. *)
Definition passo_compensado (st : float * float) (x : float) : float * float :=
  let '(f_result, c) := st in
  let t := fadd f_result x in
  if fleb (fabs x) (fabs f_result)
  then (t, fadd c (fadd (fsub f_result t) x))
  else (t, fadd c (fadd (fsub x t) f_result)).

(** [sum(vals)] from CPython 3.12 on: the first item is added to the [int]
    [0], the others go through the compensated loop, and the compensation
    is added at the end when it is finite and not zero. *)
Definition py_sum_compensada (vals : list float) : float :=
  match vals with
  | [] => zero
  | x0 :: resto =>
      let '(f_result, c) := fold_left passo_compensado resto (fadd zero x0, zero) in
      if is_finite c && negb (feqb c zero) then fadd f_result c else f_result
  end.

(** [max(range(len(vals)), key=lambda i: vals[i])]: the running best index
    is replaced only by a strictly larger value, so the first maximal
    position wins. *)
Fixpoint idx_max_from (melhor_i : nat) (melhor : float) (i : nat) (vals : list float) : nat :=
  match vals with
  | [] => melhor_i
  | v :: resto =>
      if fltb melhor v then idx_max_from i v (S i) resto
      else idx_max_from melhor_i melhor (S i) resto
  end.

Definition idx_max (vals : list float) : nat :=
  match vals with
  | [] => 0%nat
  | v :: resto => idx_max_from 0 v 1 resto
  end.

(** [np.rint]: the nearest integer, ties to even, as a float. *)
Definition rint (x : float) : float :=
  match x with
  | S754_finite s m e =>
      match round_half_even (valor_abs m e) with
      | Zpos k => arredondar64 s k 1
      | _ => S754_zero s
      end
  | _ => x
  end.

(** [Series.round(decimals)] on a float column, for [decimals >= 0]: NumPy
    multiplies by [10 ** decimals], rounds to the nearest integer and
    divides again. *)
Definition np_round (x : float) (decimals : nat) : float :=
  fdiv (rint (fmul x (de_int (Zpos (pow10 decimals))))) (de_int (Zpos (pow10 decimals))).

End PyNum.

(* ====================================================================== *)
(** * Python strings *)
(* ====================================================================== *)

Module Texto.
Local Open Scope string_scope.

Definition codigo (c : ascii) : nat := nat_of_ascii c.

(** [c.isspace()] below U+0100; also what the regex class [\s] matches. *)
Definition is_space (c : ascii) : bool :=
  let n := codigo c in
  (((9 <=? n) && (n <=? 13)) || ((28 <=? n) && (n <=? 32))
   || (n =? 133) || (n =? 160))%nat.

(** The regex class [[0-9]]. *)
Definition is_digit (c : ascii) : bool :=
  let n := codigo c in ((48 <=? n) && (n <=? 57))%nat.

Fixpoint lstrip (s : string) : string :=
  match s with
  | "" => ""
  | String c resto => if is_space c then lstrip resto else s
  end.

Fixpoint rstrip (s : string) : string :=
  match s with
  | "" => ""
  | String c resto =>
      let r := rstrip resto in
      if is_space c && String.eqb r "" then "" else String c r
  end.

(** [s.strip()] *)
Definition py_strip (s : string) : string := rstrip (lstrip s).

(** [re.sub("[^...]", "", s)]: keep the characters of the class. *)
Fixpoint manter (classe : ascii -> bool) (s : string) : string :=
  match s with
  | "" => ""
  | String c resto =>
      if classe c then String c (manter classe resto) else manter classe resto
  end.

(** [c in s] for a single character. *)
Fixpoint contem (c : ascii) (s : string) : bool :=
  match s with
  | "" => false
  | String a resto => Ascii.eqb a c || contem c resto
  end.

(** [s.rfind(c)]: index of the last occurrence, [-1] when there is none. *)
Fixpoint rfind (c : ascii) (s : string) : Z :=
  match s with
  | "" => (-1)%Z
  | String a resto =>
      let r := rfind c resto in
      if (r =? -1)%Z then (if Ascii.eqb a c then 0 else -1)%Z else (r + 1)%Z
  end.

(** The two sides of the last occurrence of [c], when there is one. *)
Fixpoint cortar_ultimo (c : ascii) (s : string) : option (string * string) :=
  match s with
  | "" => None
  | String a resto =>
      match cortar_ultimo c resto with
      | Some (esq, dir) => Some (String a esq, dir)
      | None => if Ascii.eqb a c then Some ("", resto) else None
      end
  end.

(** [s.rsplit(c, 1)] *)
Definition rsplit1 (c : ascii) (s : string) : list string :=
  match cortar_ultimo c s with
  | Some (esq, dir) => [esq; dir]
  | None => [s]
  end.

(** The two sides of the first occurrence of [c]. *)
Fixpoint cortar_primeiro (c : ascii) (s : string) : option (string * string) :=
  match s with
  | "" => None
  | String a resto =>
      if Ascii.eqb a c then Some ("", resto)
      else match cortar_primeiro c resto with
           | Some (esq, dir) => Some (String a esq, dir)
           | None => None
           end
  end.

Fixpoint todos (classe : ascii -> bool) (s : string) : bool :=
  match s with
  | "" => true
  | String c resto => classe c && todos classe resto
  end.

(** The number written by a run of decimal digits, most significant first. *)
Fixpoint valor_digitos (acc : Z) (s : string) : Z :=
  match s with
  | "" => acc
  | String c resto => valor_digitos (10 * acc + Z.of_nat (codigo c - 48)) resto
  end.

(** [float(s)] on the strings that reach it.  After the filters of the
    parsers only digits, ["-"] and ["."] are left, so the accepted shapes are
    an optional sign followed by [digits], [digits.], [.digits] or
    [digits.digits]; anything else raises [ValueError], which is [None].
    The decimal value is rounded to the nearest float, ties to even; a
    value too large gives an infinity, and the sign is kept on zero. *)
Definition decimal (neg : bool) (digitos : string) (casas : nat) : PyNum.float :=
  match valor_digitos 0 digitos with
  | Zpos n => PyNum.arredondar64 neg n (PyNum.pow10 casas)
  | _ => S754_zero neg
  end.

Definition py_float (s : string) : option PyNum.float :=
  let '(neg, corpo) :=
    match s with
    | String "-" resto => (true, resto)
    | String "+" resto => (false, resto)
    | _ => (false, s)
    end in
  match cortar_primeiro "." corpo with
  | None =>
      if todos is_digit corpo && negb (String.eqb corpo "")
      then Some (decimal neg corpo 0)
      else None
  | Some (inteiro, fracao) =>
      if todos is_digit inteiro && todos is_digit fracao
         && negb (String.eqb inteiro "" && String.eqb fracao "")
      then Some (decimal neg (inteiro +:+ fracao) (String.length fracao))
      else None
  end.

(** ** [str(x)] of a float *)

Definition float_eqb (a b : PyNum.float) : bool :=
  match a, b with
  | S754_zero s, S754_zero t => Bool.eqb s t
  | S754_infinity s, S754_infinity t => Bool.eqb s t
  | S754_nan, S754_nan => true
  | S754_finite s m e, S754_finite t n f => Bool.eqb s t && Pos.eqb m n && Z.eqb e f
  | _, _ => false
  end.

Definition digitos_de (k : Z) : string :=
  DecimalString.NilZero.string_of_uint (Pos.to_uint (Z.to_pos k)).

(** The least [t >= 1] with [q * 10^t >= 1], for [0 < q < 1]. *)
Fixpoint casas_ate_um (fuel : nat) (q : Q) (t : Z) : Z :=
  match fuel with
  | O => t
  | S f =>
      let q' := (q * 10)%Q in
      if Qle_bool 1 q' then (t + 1)%Z else casas_ate_um f q' (t + 1)%Z
  end.

(** [floor(log10 q)] for [q > 0]. *)
Definition expoente10 (q : Q) : Z :=
  if Qle_bool 1 q
  then (Z.of_nat (String.length (digitos_de (Qfloor q))) - 1)%Z
  else (- casas_ate_um 400 q 0)%Z.

(** The float nearest to a nonnegative rational. *)
Definition float_de_Q (q : Q) : PyNum.float :=
  match Qnum q with
  | Zpos n => PyNum.arredondar64 false n (Qden q)
  | _ => S754_zero false
  end.

(** The decimal of [nd] significant digits nearest to [q] among those that
    read back as the float [x], as its digits [k] taken at the scale of
    [nd] digits, when there is one. *)
Definition candidato (x : PyNum.float) (q : Q) (e10 : Z) (nd : Z) : option Z :=
  let escala := Qpower 10 (nd - 1 - e10) in
  let qs := (q * escala)%Q in
  let lo := Qfloor qs in
  let hi := (lo + 1)%Z in
  let volta k := (0 <? k)%Z && float_eqb (float_de_Q (inject_Z k / escala)%Q) x in
  match volta lo, volta hi with
  | true, true =>
      if Qle_bool (qs - inject_Z lo)%Q (inject_Z hi - qs)%Q then Some lo else Some hi
  | true, false => Some lo
  | false, true => Some hi
  | false, false => None
  end.

Fixpoint mais_curto (x : PyNum.float) (q : Q) (e10 : Z) (nds : list Z) : option (Z * Z) :=
  match nds with
  | [] => None
  | nd :: resto =>
      match candidato x q e10 nd with
      | Some k => Some (k, nd)
      | None => mais_curto x q e10 resto
      end
  end.

Fixpoint sem_zeros_finais (s : string) : string :=
  match s with
  | "" => ""
  | String c resto =>
      let r := sem_zeros_finais resto in
      if Ascii.eqb c "0" && String.eqb r "" then "" else String c r
  end.

Fixpoint zeros (n : nat) : string :=
  match n with
  | O => ""
  | S k => String "0" (zeros k)
  end.

Definition expoente_texto (e : Z) : string :=
  let d := digitos_de (Z.abs e) in
  (if (e <? 0)%Z then "-" else "+")
  +:+ (if (Z.abs e =? 0)%Z then "00"
       else if (String.length d <? 2)%nat then "0" +:+ d else d).

(** The shortest digits that read back as the float, in the layout of
    [repr]: exponent notation when the decimal point falls before the
    fourth leading zero or after the sixteenth digit. *)
Definition repr_finito (m : positive) (e : Z) : string :=
  let x := S754_finite false m e in
  let q := PyNum.valor_abs m e in
  let e10 := expoente10 q in
  match mais_curto x q e10 [1; 2; 3; 4; 5; 6; 7; 8; 9; 10; 11; 12; 13; 14; 15; 16; 17]%Z with
  | None => ""
  | Some (k, nd) =>
      let ds := digitos_de k in
      let decpt := (Z.of_nat (String.length ds) + e10 - nd + 1)%Z in
      let ds := sem_zeros_finais ds in
      let n := Z.of_nat (String.length ds) in
      if ((decpt <=? -4) || (16 <? decpt))%Z then
        match ds with
        | String d1 resto =>
            String d1 (if String.eqb resto "" then "" else "." +:+ resto)
            +:+ "e" +:+ expoente_texto (decpt - 1)
        | "" => ""
        end
      else if (decpt <=? 0)%Z then "0." +:+ zeros (Z.to_nat (- decpt)) +:+ ds
      else if (n <=? decpt)%Z then ds +:+ zeros (Z.to_nat (decpt - n)) +:+ ".0"
      else substring 0 (Z.to_nat decpt) ds +:+ "."
           +:+ substring (Z.to_nat decpt) (Z.to_nat (n - decpt)) ds
  end.

Definition str_float (x : PyNum.float) : string :=
  match x with
  | S754_nan => "nan"
  | S754_infinity s => if s then "-inf" else "inf"
  | S754_zero s => if s then "-0.0" else "0.0"
  | S754_finite s m e => (if s then "-" else "") +:+ repr_finito m e
  end.

End Texto.

(* ====================================================================== *)
(** * Locale numeric parser ([curvas_prod]) *)
(* ====================================================================== *)

Module Numeros.
Import Texto PyNum.
Local Open Scope string_scope.

(** A cell value: missing, a float, or text. *)
Inductive valor : Type :=
| VNa
| VNum (x : float)
| VStr (s : string).

(** [pd.isna(value)] *)
Definition isna (value : valor) : bool :=
  match value with
  | VNa => true
  | VNum x => is_nan x
  | VStr _ => false
  end.

(** The class [[0-9,.\-]]. *)
Definition char_numero (c : ascii) : bool :=
  is_digit c || Ascii.eqb c "," || Ascii.eqb c "." || Ascii.eqb c "-".

(** The class [[0-9\-]]. *)
Definition char_inteiro (c : ascii) : bool := is_digit c || Ascii.eqb c "-".

(** The text branch of [_parse_number_br], from [s = str(value).strip()]
    on. *)
Definition parse_texto (texto : string) : option float :=
  let s := py_strip texto in
  if String.eqb s "" then None else
  let s := manter char_numero s in
  if String.eqb s "" || String.eqb s "-" || String.eqb s "," || String.eqb s "."
  then None else
  let last_comma := rfind "," s in
  let last_dot := rfind "." s in
  if ((last_comma =? -1) && (last_dot =? -1))%Z then py_float s else
  let dec := (if (last_dot <? last_comma)%Z then "," else ".")%char in
  let parts := rsplit1 dec s in
  let int_part := manter char_inteiro (nth 0 parts "") in
  let frac_part :=
    if (List.length parts =? 2)%nat then manter is_digit (nth 1 parts "") else "" in
  let num_str := int_part +:+ (if String.eqb frac_part "" then "" else "." +:+ frac_part) in
  py_float num_str.

Definition _parse_number_br (value : valor) : option float :=
  if isna value then None else
  match value with
  | VNa => None
  | VNum x => Some x
  | VStr texto => parse_texto texto
  end.

(** [str(value)] *)
Definition py_str (value : valor) : string :=
  match value with
  | VNa => "nan"
  | VNum x => str_float x
  | VStr s => s
  end.

Definition _parse_number_br_pct (value : valor) : option float :=
  if isna value then None else
  let s := py_strip (py_str value) in
  let has_pct := contem "%" s in
  match _parse_number_br (VStr s) with
  | None => None
  | Some val => Some (if has_pct then fdiv val (de_int 100) else val)
  end.

End Numeros.

(* ====================================================================== *)
(** * Percentage closure: the loop body of [_ajustar_vp_obra_com_3_decimais] *)
(* ====================================================================== *)

Module Fechamento.
Import PyNum.

(** [[float(v) if pd.notna(v) else 0.0 for v in grupo["VPObra"].values]]:
    a missing value and a not-a-number both become [0.0]. *)
Definition preencher (grupo : list (option float)) : list float :=
  map (fun v => match v with
                | Some x => if is_nan x then zero else x
                | None => zero
                end) grupo.

Section Soma.
(** The builtin [sum] of the interpreter that runs the code:
    [PyNum.py_sum] before CPython 3.12, [PyNum.py_sum_compensada] from
    3.12 on. *)
Variable soma : list float -> float.

(** "Arredondar primeiro" and "Correção": round, then rescale when the sum
    is further than 0.0005 from 1.000. *)
Definition reescalar (vals : list float) : list float :=
  let vals := map (fun v => py_round v 3) vals in
  let soma_atual := soma vals in
  if fltb (literal 5 10000) (fabs (fsub soma_atual um)) then
    let fator :=
      if fltb zero soma_atual then fdiv um soma_atual
      else if (0 <? List.length vals)%nat
           then fdiv um (de_int (Z.of_nat (List.length vals)))
           else um in
    map (fun v => py_round (fmul v fator) 3) vals
  else vals.

(** "Ajuste fino para fechar 1.000": the residual
    [diff = round(1.000 - soma_ajustada, 3)] is pushed onto the largest
    value. *)
Definition empurrar_diferenca (vals : list float) : list float :=
  let soma_ajustada := soma vals in
  let diff := py_round (fsub um soma_ajustada) 3 in
  if fltb zero (fabs diff) && (0 <? List.length vals)%nat then
    let i := idx_max vals in
    <[i := py_round (fadd (nth i vals zero) diff) 3]> vals
  else vals.

(** "Garantia final". *)
Definition garantia_final (vals : list float) : list float :=
  let soma_final := py_round (soma vals) 3 in
  if fltb (literal 1 1000) (fabs (fsub soma_final um)) && (0 <? List.length vals)%nat then
    <[0%nat := py_round (fadd (nth 0 vals zero) (py_round (fsub um soma_final) 3)) 3]> vals
  else vals.

(** The values written back for one group. *)
Definition ajustar_grupo (grupo : list (option float)) : list float :=
  garantia_final (empurrar_diferenca (reescalar (preencher grupo))).

End Soma.

End Fechamento.

(* ====================================================================== *)
(** * Tables and results shared by the report pipelines *)
(* ====================================================================== *)

Module Tabela.
Import PyNum Texto Numeros.
Local Open Scope string_scope.

(** What a call gives back: a value, or the exception it raised. *)
Inductive resultado (A : Type) : Type :=
| Ok (a : A)
| Excecao (msg : string).
Arguments Ok {A} a.
Arguments Excecao {A} msg.

(** A sheet as [pd.read_excel] hands it over: the text of the column
    labels and the rows of cells. *)
Record DataFrame : Type := {
  columns : list string;
  linhas : list (list valor)
}.

(** [df.empty]: some axis has length zero. *)
Definition df_empty (df : DataFrame) : bool :=
  match columns df, linhas df with
  | [], _ | _, [] => true
  | _, _ => false
  end.

(** [c in cols] *)
Definition pertence (c : string) (cols : list string) : bool :=
  existsb (String.eqb c) cols.

Fixpoint indice (c : string) (cols : list string) : option nat :=
  match cols with
  | [] => None
  | x :: resto =>
      if String.eqb x c then Some 0%nat
      else option_map S (indice c resto)
  end.

(** The cell of [linha] under the first column labelled [c]. *)
Definition celula (cols : list string) (c : string) (linha : list valor) : valor :=
  match indice c cols with
  | Some i => nth i linha VNa
  | None => VNa
  end.

(** [sep.join(partes)] *)
Fixpoint join (sep : string) (partes : list string) : string :=
  match partes with
  | [] => ""
  | [p] => p
  | p :: resto => p +:+ sep +:+ join sep resto
  end.

(** An uploaded workbook: its name and what the reading call of the report
    at hand gives for it, the sheets in workbook order or the exception it
    raises.  [T] is the table as that call returns it. *)
Record Upload (T : Type) : Type := {
  name : string;
  conteudo : resultado (list (string * T))
}.
Arguments name {T} _.
Arguments conteudo {T} _.

(** [d[k] = v] on a dict kept in insertion order. *)
Fixpoint dict_set {V : Type} (d : list (string * V)) (k : string) (v : V)
  : list (string * V) :=
  match d with
  | [] => [(k, v)]
  | (k', v') :: resto =>
      if String.eqb k' k then (k, v) :: resto
      else (k', v') :: dict_set resto k v
  end.

(** [d.update(outro)] *)
Definition dict_update {V : Type} (d outro : list (string * V)) : list (string * V) :=
  fold_left (fun acc kv => dict_set acc (fst kv) (snd kv)) outro d.

(** [d.get(k)] *)
Fixpoint dict_get {V : Type} (d : list (string * V)) (k : string) : option V :=
  match d with
  | [] => None
  | (k', v') :: resto => if String.eqb k' k then Some v' else dict_get resto k
  end.

End Tabela.

(* ====================================================================== *)
(** * Production curves ([curvas_prod]) *)
(* ====================================================================== *)

Module Curvas.
Import PyNum Texto Numeros Fechamento Tabela.
Local Open Scope string_scope.

Definition MAX_FILES : nat := 300.

Definition CURVE_REQUIRED_COLS : list string :=
  ["IdEmpreendimento"; "IdModulo"; "DataReferencia"; "VPCurva"; "PesoModulo";
   "Unidades"; "VPModulo"; "VPObra"; "Obra"; "SimulacaoId"].

(** One row of the treated table, under [CURVE_REQUIRED_COLS]. *)
Record Curva : Type := {
  IdEmpreendimento : string;
  IdModulo : string;
  DataReferencia : string;
  VPCurva : option float;
  PesoModulo : option float;
  Unidades : option float;
  VPModulo : option float;
  VPObra : option float;
  Obra : string;
  SimulacaoId : string
}.

Definition com_VPObra (l : Curva) (v : option float) : Curva :=
  {| IdEmpreendimento := IdEmpreendimento l; IdModulo := IdModulo l;
     DataReferencia := DataReferencia l; VPCurva := VPCurva l;
     PesoModulo := PesoModulo l; Unidades := Unidades l;
     VPModulo := VPModulo l; VPObra := v; Obra := Obra l;
     SimulacaoId := SimulacaoId l |}.

(** [_formatar_data_referencia]: ["2026-5"] becomes ["01/05/2026"]. *)
Definition _formatar_data_referencia (data_str : string) : string :=
  let data_str := py_strip data_str in
  match cortar_primeiro "-" data_str with
  | Some (ano, mes) =>
      if todos is_digit ano && (String.length ano =? 4)%nat
         && todos is_digit mes
         && ((String.length mes =? 1)%nat || (String.length mes =? 2)%nat)
      then "01/" +:+ (if (String.length mes =? 1)%nat then "0" +:+ mes else mes)
           +:+ "/" +:+ ano
      else data_str
  | None => data_str
  end.

(** [df.rename(columns={c: c.strip() for c in df.columns})] *)
Definition _padronizar_colunas (df : DataFrame) : DataFrame :=
  {| columns := map py_strip (columns df); linhas := linhas df |}.

(** The grouping keys that identify one curve, from the labels present. *)
Definition _deduzir_chaves_curva (cols : list string) : list string :=
  let candidatos :=
    [ ["IdEmpreendimento"; "Obra"; "SimulacaoId"];
      ["IdEmpreendimento"; "SimulacaoId"];
      ["IdEmpreendimento"; "Obra"];
      ["IdEmpreendimento"] ] in
  match List.find (fun keys => forallb (fun k => pertence k cols) keys) candidatos with
  | Some keys => keys
  | None =>
      match List.filter (fun c => pertence c cols)
                        ["IdEmpreendimento"; "Obra"; "SimulacaoId"] with
      | [] => ["IdEmpreendimento"]
      | presentes => presentes
      end
  end.

(** The text of a key column of a treated row. *)
Definition campo (k : string) (l : Curva) : string :=
  if String.eqb k "IdEmpreendimento" then IdEmpreendimento l
  else if String.eqb k "Obra" then Obra l
  else if String.eqb k "SimulacaoId" then SimulacaoId l
  else if String.eqb k "IdModulo" then IdModulo l
  else if String.eqb k "DataReferencia" then DataReferencia l
  else "".

Definition chave (keys : list string) (l : Curva) : list string :=
  map (fun k => campo k l) keys.

Definition chave_eqb (a b : list string) : bool :=
  if list_eq_dec String.string_dec a b then true else false.

(** [groupby(keys, sort=False)]: the row positions of each key, groups in
    order of first appearance, positions in row order. *)
Fixpoint agrupar_em (grupos : list (list string * list nat))
         (k : list string) (i : nat) : list (list string * list nat) :=
  match grupos with
  | [] => [(k, [i])]
  | (k', idxs) :: resto =>
      if chave_eqb k' k then (k', (idxs ++ [i])%list) :: resto
      else (k', idxs) :: agrupar_em resto k i
  end.

Definition groupby (keys : list string) (df : list Curva)
  : list (list string * list nat) :=
  fold_left (fun grupos il => agrupar_em grupos (chave keys (snd il)) (fst il))
            (combine (seq 0 (List.length df)) df) [].

(** [for i, idx in enumerate(idxs): df.at[idx, "VPObra"] = vals[i]] *)
Definition atribuir (df : list Curva) (idxs : list nat) (vals : list float) : list Curva :=
  fold_left (fun acc iv =>
               match acc !! fst iv with
               | Some l => <[fst iv := com_VPObra l (Some (snd iv))]> acc
               | None => acc
               end)
            (combine idxs vals) df.

(** The values of [VPObra] at the positions [idxs]. *)
Definition valores_vp (df : list Curva) (idxs : list nat) : list (option float) :=
  map (fun i => match df !! i with
                | Some l => VPObra l
                | None => None
                end) idxs.

(** [pd.to_numeric(col, errors="coerce").round(decimals)] on one cell: a
    missing value stays missing. *)
Definition arredondar (decimals : nat) (v : option float) : option float :=
  option_map (fun x => np_round x decimals) v.

(** 2 decimals for the plain numeric columns, 3 for [VPObra]. *)
Definition _limitar_casas_decimais (df : list Curva) : list Curva :=
  map (fun l =>
         {| IdEmpreendimento := IdEmpreendimento l; IdModulo := IdModulo l;
            DataReferencia := DataReferencia l;
            VPCurva := arredondar 2 (VPCurva l);
            PesoModulo := arredondar 2 (PesoModulo l);
            Unidades := arredondar 2 (Unidades l);
            VPModulo := arredondar 2 (VPModulo l);
            VPObra := arredondar 3 (VPObra l);
            Obra := Obra l; SimulacaoId := SimulacaoId l |}) df.

(** The required labels that the table lacks. *)
Definition faltantes (df : DataFrame) : list string :=
  List.filter (fun c => negb (pertence c (columns df))) CURVE_REQUIRED_COLS.

Definition aviso_faltantes (fonte : string) (falt : list string) : string :=
  "Fonte '" +:+ fonte +:+ "': colunas ausentes: " +:+ join ", " falt
  +:+ ". Ignorada.".

(** The order of the stacked table. *)
Definition ord_cols : list string :=
  ["SimulacaoId"; "IdEmpreendimento"; "Obra"; "IdModulo"; "DataReferencia"].

Fixpoint comparar_chaves (a b : list string) : comparison :=
  match a, b with
  | [], [] => Eq
  | [], _ :: _ => Lt
  | _ :: _, [] => Gt
  | x :: a', y :: b' =>
      match String.compare x y with
      | Eq => comparar_chaves a' b'
      | c => c
      end
  end.

Definition antes_ou_igual (a b : string * Curva) : bool :=
  match comparar_chaves (chave ord_cols (snd a)) (chave ord_cols (snd b)) with
  | Gt => false
  | _ => true
  end.

Fixpoint inserir (x : string * Curva) (l : list (string * Curva)) : list (string * Curva) :=
  match l with
  | [] => [x]
  | y :: resto => if antes_ou_igual x y then x :: l else y :: inserir x resto
  end.

(** [sort_values(by=ord_cols, kind="mergesort")]: the stable sort; rows with
    equal keys keep their order. *)
Definition sort_values (l : list (string * Curva)) : list (string * Curva) :=
  fold_right inserir [] l.

Section Tratamento.
(** The builtin [sum] of the interpreter, see [Fechamento]. *)
Variable soma : list float -> float.

(** The treated table always carries the three key columns, so the keys are
    those deduced from its labels. *)
Definition _ajustar_vp_obra_com_3_decimais (df : list Curva) : list Curva :=
  match df with
  | [] => df
  | _ =>
      let keys := _deduzir_chaves_curva CURVE_REQUIRED_COLS in
      fold_left (fun acc grupo =>
                   atribuir acc (snd grupo)
                            (ajustar_grupo soma (valores_vp acc (snd grupo))))
                (groupby keys df) df
  end.

Definition ler_linha (cols : list string) (linha : list valor) : Curva :=
  let texto c := py_strip (py_str (celula cols c linha)) in
  {| IdEmpreendimento := texto "IdEmpreendimento";
     IdModulo := texto "IdModulo";
     DataReferencia := _formatar_data_referencia (texto "DataReferencia");
     VPCurva := _parse_number_br (celula cols "VPCurva" linha);
     PesoModulo := _parse_number_br (celula cols "PesoModulo" linha);
     Unidades := _parse_number_br (celula cols "Unidades" linha);
     VPModulo := _parse_number_br_pct (celula cols "VPModulo" linha);
     VPObra := _parse_number_br_pct (celula cols "VPObra" linha);
     Obra := texto "Obra";
     SimulacaoId := texto "SimulacaoId" |}.

(** How many columns carry the label [c]. *)
Definition ocorrencias (c : string) (cols : list string) : nat :=
  List.length (List.filter (String.eqb c) cols).

Definition repetida (cols : list string) (c : string) : bool :=
  (1 <? ocorrencias c cols)%nat.

(** [_tratar_curva]: the treated rows and the warnings.  When trimming
    leaves a required label on two columns, [out[c]] is a table and not a
    column: [apply] then hands whole columns to the parser, whose test on
    [pd.isna] raises (on a table without rows [apply] calls nothing), and
    the [.str] accessor does not exist. *)
Definition _tratar_curva (df : DataFrame) (fonte : string)
  : resultado (list Curva * list string) :=
  let df := _padronizar_colunas df in
  match faltantes df with
  | [] =>
      if existsb (repetida (columns df))
                 ["VPCurva"; "PesoModulo"; "Unidades"; "VPModulo"; "VPObra"]
         && negb (match linhas df with [] => true | _ => false end)
      then Excecao "ValueError: The truth value of a Series is ambiguous. Use a.empty, a.bool(), a.item(), a.any() or a.all()."
      else if existsb (repetida (columns df))
                      ["IdEmpreendimento"; "IdModulo"; "Obra"; "SimulacaoId";
                       "DataReferencia"]
      then Excecao "AttributeError: 'DataFrame' object has no attribute 'str'"
      else
        let out := map (ler_linha (columns df)) (linhas df) in
        Ok (_limitar_casas_decimais (_ajustar_vp_obra_com_3_decimais out), [])
  | falt => Ok ([], [aviso_faltantes fonte falt])
  end.

(** One turn of the loop of [empilhar_curvas] over [(emp, ok_list, warn_list)]. *)
Definition empilhar_passo
           (acc : list (string * Curva) * list string * list string)
           (fd : string * DataFrame)
  : resultado (list (string * Curva) * list string * list string) :=
  let '(emp, ok_list, warn_list) := acc in
  let fonte := fst fd in
  if df_empty (snd fd)
  then Ok (emp, ok_list, (warn_list ++ ["Fonte '" +:+ fonte +:+ "' vazia. Ignorada."])%list)
  else
    match _tratar_curva (snd fd) fonte with
    | Excecao e => Excecao e
    | Ok (tratado, avisos) =>
        match tratado with
        | [] => Ok (emp, ok_list, (warn_list ++ avisos)%list)
        | _ => Ok ((emp ++ map (pair fonte) tratado)%list, (ok_list ++ [fonte])%list,
                   (warn_list ++ avisos)%list)
        end
    end.

(** The loop of [empilhar_curvas]: an exception of a turn ends it. *)
Fixpoint empilhar_de (acc : list (string * Curva) * list string * list string)
         (dfs_por_guia : list (string * DataFrame))
  : resultado (list (string * Curva) * list string * list string) :=
  match dfs_por_guia with
  | [] => Ok acc
  | fd :: resto =>
      match empilhar_passo acc fd with
      | Excecao e => Excecao e
      | Ok acc => empilhar_de acc resto
      end
  end.

(** [empilhar_curvas]: the stacked table with its column [Fonte], the
    accepted sources and the warnings. *)
Definition empilhar_curvas (dfs_por_guia : list (string * DataFrame))
  : resultado (list (string * Curva) * list string * list string) :=
  match empilhar_de ([], [], []) dfs_por_guia with
  | Excecao e => Excecao e
  | Ok (emp, ok_list, warn_list) =>
      match emp with
      | [] => Ok ([], ok_list, warn_list)
      | _ =>
          let ajustado := _limitar_casas_decimais
                            (_ajustar_vp_obra_com_3_decimais (map snd emp)) in
          Ok (sort_values (combine (map fst emp) ajustado), ok_list, warn_list)
      end
  end.

End Tratamento.

(** [ler_varios_excels_curvas]: no [try] around [pd.read_excel], so an
    unreadable workbook raises out of the loop. *)
Fixpoint ler_curvas_de (dfs : list (string * DataFrame)) (files : list (Upload DataFrame))
  : resultado (list (string * DataFrame)) :=
  match files with
  | [] => Ok dfs
  | up :: resto =>
      match conteudo up with
      | Excecao msg => Excecao msg
      | Ok xls =>
          ler_curvas_de
            (fold_left (fun acc sd => dict_set acc (name up +:+ "::" +:+ fst sd) (snd sd))
                       xls dfs)
            resto
      end
  end.

Definition ler_varios_excels_curvas (files : list (Upload DataFrame))
  : resultado (list (string * DataFrame)) :=
  ler_curvas_de [] (firstn MAX_FILES files).

(** What [render_tab] does with the uploaded files, up to the reading step. *)
Inductive tela : Type :=
| Aguardando
| Rejeitada
| Lida (r : resultado (list (string * DataFrame))).

Definition render_tab (uploaded_files_curvas : list (Upload DataFrame)) : tela :=
  match uploaded_files_curvas with
  | [] => Aguardando
  | _ =>
      if (MAX_FILES <? List.length uploaded_files_curvas)%nat then Rejeitada
      else Lida (ler_varios_excels_curvas uploaded_files_curvas)
  end.

End Curvas.

(* ====================================================================== *)
(** * Reading the workbooks of the wall report ([marco_parede]) *)
(* ====================================================================== *)

Module Parede.
Import Tabela.
Local Open Scope string_scope.

Definition MAX_FILES : nat := 300.

Section Leitura.
(** A sheet as [pd.read_excel(up, sheet_name=None)] returns it. *)
Context {T : Type}.

(** One turn of the loop over [(todos, warnings)]: a workbook that cannot
    be read leaves a warning and is skipped. *)
Definition ler_passo (acc : list (string * list (string * T)) * list string)
           (up : Upload T) : list (string * list (string * T)) * list string :=
  match conteudo up with
  | Excecao e => (fst acc, (snd acc ++ ["Falha ao ler '" +:+ name up +:+ "': " +:+ e])%list)
  | Ok xls => (dict_set (fst acc) (name up) xls, snd acc)
  end.

(** [ler_todas_linhas_excels]: the sheets of every readable workbook by
    file name, and the warnings shown. *)
Definition ler_todas_linhas_excels (files : list (Upload T))
  : list (string * list (string * T)) * list string :=
  fold_left ler_passo (firstn MAX_FILES files) ([], []).

End Leitura.

End Parede.

(* ====================================================================== *)
(** * Milestones of the schedules ([marco_cronograma], [marco_modulo]) *)
(* ====================================================================== *)

Module Marco.
Import PyNum Texto Tabela.
Local Open Scope string_scope.

Definition MAX_FILES : nat := 1000.
Definition TOP_N : nat := 10.
Definition EXCEL_SHEETNAME_MAX : nat := 31.

(** ** Text with accents *)

Definition letra (n : nat) : string := String (ascii_of_nat n) "".

(** ["Duração"], ["Início"], ["Término"], ["Fundação"], ["Fim Físico"] and the
    upper-case keys ["INÍCIO"], ["TÉRMINO"]. *)
Definition Duracao : string := "Dura" +:+ letra 231 +:+ letra 227 +:+ "o".
Definition Inicio : string := "In" +:+ letra 237 +:+ "cio".
Definition Termino : string := "T" +:+ letra 233 +:+ "rmino".
Definition Fundacao : string := "Funda" +:+ letra 231 +:+ letra 227 +:+ "o".
Definition Fim_Fisico : string := "Fim F" +:+ letra 237 +:+ "sico".
Definition INICIO_acento : string := "IN" +:+ letra 205 +:+ "CIO".
Definition TERMINO_acento : string := "T" +:+ letra 201 +:+ "RMINO".
Definition Duracao_obra : string := Duracao +:+ " obra (meses)".

Definition TARGET_COLS : list string :=
  ["Arquivo"; "NET"; "Nome"; Duracao; Inicio; Termino; "Custo Obra"; "Obra";
   "IdEmpreendimento"; "SimulacaoId"; Duracao_obra].

(** [unicodedata.normalize("NFKD", c).encode("ASCII", "ignore")] of one
    character below U+0100: the base letter of an accented letter, the
    digits of a superscript or fraction, a space for a spacing accent, and
    nothing for what has no ASCII decomposition. *)
Definition nfkd_ascii (c : ascii) : string :=
  let n := codigo c in
  if (n <? 128)%nat then String c ""
  else if ((n =? 160) || (n =? 168) || (n =? 175) || (n =? 180) || (n =? 184))%nat then " "
  else if ((n =? 170) || ((224 <=? n) && (n <=? 229)))%nat then "a"
  else if (n =? 178)%nat then "2"
  else if (n =? 179)%nat then "3"
  else if (n =? 185)%nat then "1"
  else if ((n =? 186) || ((242 <=? n) && (n <=? 246)))%nat then "o"
  else if (n =? 188)%nat then "14"
  else if (n =? 189)%nat then "12"
  else if (n =? 190)%nat then "34"
  else if ((192 <=? n) && (n <=? 197))%nat then "A"
  else if (n =? 199)%nat then "C"
  else if ((200 <=? n) && (n <=? 203))%nat then "E"
  else if ((204 <=? n) && (n <=? 207))%nat then "I"
  else if (n =? 209)%nat then "N"
  else if ((210 <=? n) && (n <=? 214))%nat then "O"
  else if ((217 <=? n) && (n <=? 220))%nat then "U"
  else if (n =? 221)%nat then "Y"
  else if (n =? 231)%nat then "c"
  else if ((232 <=? n) && (n <=? 235))%nat then "e"
  else if ((236 <=? n) && (n <=? 239))%nat then "i"
  else if (n =? 241)%nat then "n"
  else if ((249 <=? n) && (n <=? 252))%nat then "u"
  else if ((n =? 253) || (n =? 255))%nat then "y"
  else "".

Fixpoint sem_acentos (s : string) : string :=
  match s with
  | "" => ""
  | String c resto => nfkd_ascii c +:+ sem_acentos resto
  end.

(** [re.sub(r"\s+", " ", s)]: each run of whitespace becomes one space. *)
Fixpoint colapsar_de (em_espaco : bool) (s : string) : string :=
  match s with
  | "" => ""
  | String c resto =>
      if is_space c
      then (if em_espaco then colapsar_de true resto
            else String " " (colapsar_de true resto))
      else String c (colapsar_de false resto)
  end.

Definition colapsar (s : string) : string := colapsar_de false s.

(** [s.upper()] on ASCII text. *)
Definition maiuscula (c : ascii) : ascii :=
  let n := codigo c in
  if ((97 <=? n) && (n <=? 122))%nat then ascii_of_nat (n - 32) else c.

Fixpoint upper (s : string) : string :=
  match s with
  | "" => ""
  | String c resto => String (maiuscula c) (upper resto)
  end.

Definition _strip_accents_upper (s : string) : string :=
  upper (py_strip (colapsar (sem_acentos s))).

(** ** Sheets with typed cells *)

Record Data : Type := { year : Z; month : Z; day : Z }.

(** A cell as [xls.parse] reads it: blank, text, an integer, a float or a
    date. *)
Inductive celula : Type :=
| CVazia
| CTexto (s : string)
| CInteiro (n : Z)
| CNumero (x : float)
| CData (d : Data).

Record Folha : Type := {
  colunas : list string;
  registros : list (list celula)
}.

(** [df.empty] *)
Definition vazia (df : Folha) : bool :=
  match colunas df, registros df with
  | [], _ | _, [] => true
  | _, _ => false
  end.

(** The cell of [linha] under the first column labelled [c]. *)
Definition celula_de (cols : list string) (c : string) (linha : list celula) : celula :=
  match indice c cols with
  | Some i => nth i linha CVazia
  | None => CVazia
  end.

Definition coluna (df : Folha) (c : string) : list celula :=
  map (celula_de (colunas df) c) (registros df).

(** How many columns carry the label [c]. *)
Definition ocorrencias (c : string) (cols : list string) : nat :=
  List.length (List.filter (String.eqb c) cols).

(** [df[c] = vals]: the column is replaced where it is, or added last. *)
Fixpoint trocar (i : nat) (v : celula) (linha : list celula) : list celula :=
  match linha, i with
  | [], _ => []
  | _ :: resto, O => v :: resto
  | x :: resto, S k => x :: trocar k v resto
  end.

Definition com_coluna (df : Folha) (c : string) (vals : list celula) : Folha :=
  match indice c (colunas df) with
  | Some i =>
      {| colunas := colunas df;
         registros := map (fun lv => trocar i (snd lv) (fst lv))
                          (combine (registros df) vals) |}
  | None =>
      {| colunas := (colunas df ++ [c])%list;
         registros := map (fun lv => (fst lv ++ [snd lv])%list)
                          (combine (registros df) vals) |}
  end.

(** ** Column names *)

Definition canon_map : list (string * string) :=
  [("NET", "NET"); ("NOME", "Nome"); ("DURACAO", Duracao);
   ("DURACAO (DIAS)", Duracao); ("INICIO", Inicio); (INICIO_acento, Inicio);
   ("TERMINO", Termino); (TERMINO_acento, Termino);
   ("CUSTO", "Custo Obra"); ("CUSTO OBRA", "Custo Obra"); ("OBRA", "Obra");
   ("NOME OBRA", "Obra"); ("IDEMPREENDIMENTO", "IdEmpreendimento");
   ("SIMULACAOID", "SimulacaoId"); ("ID SIMULACAO", "SimulacaoId");
   ("ID_SIMULACAO", "SimulacaoId")].

(** [canon_map.get(_strip_accents_upper(c), c)] *)
Definition renomear (c : string) : string :=
  match dict_get canon_map (_strip_accents_upper c) with
  | Some canonico => canonico
  | None => c
  end.

Definition _normalize_columns (df : Folha) : Folha :=
  if vazia df then df
  else {| colunas := map renomear (colunas df); registros := registros df |}.

(** ** Duration of a work *)

(** [a < b] on dates. *)
Definition antes (a b : Data) : bool :=
  ((year a <? year b)
   || ((year a =? year b)
       && ((month a <? month b) || ((month a =? month b) && (day a <? day b)))))%Z.

(** [Series.min()] and [Series.max()] of dates: missing dates are skipped,
    and the result is missing when none is left. *)
Definition minimo (ds : list (option Data)) : option Data :=
  fold_left (fun acc d =>
               match acc, d with
               | Some a, Some b => Some (if antes b a then b else a)
               | None, _ => d
               | _, None => acc
               end) ds None.

Definition maximo (ds : list (option Data)) : option Data :=
  fold_left (fun acc d =>
               match acc, d with
               | Some a, Some b => Some (if antes a b then b else a)
               | None, _ => d
               | _, None => acc
               end) ds None.

(** Case folding of the regular expressions, below U+0100. *)
Definition minuscula (c : ascii) : ascii :=
  let n := codigo c in
  if (((65 <=? n) && (n <=? 90)) || ((192 <=? n) && (n <=? 214))
      || ((216 <=? n) && (n <=? 222)))%nat
  then ascii_of_nat (n + 32) else c.

Fixpoint comeca_com_ci (pat s : string) : bool :=
  match pat, s with
  | "", _ => true
  | String _ _, "" => false
  | String p pat', String c s' =>
      Ascii.eqb (minuscula p) (minuscula c) && comeca_com_ci pat' s'
  end.

(** [re.search(pat, s, re.IGNORECASE)] for a pattern of plain letters. *)
Fixpoint contem_ci (pat s : string) : bool :=
  comeca_com_ci pat s
  || match s with
     | "" => false
     | String _ s' => contem_ci pat s'
     end.

(** [Series.str.contains(pat, case=False, na=False)] on one cell: what is
    not text counts as no match. *)
Definition str_contains (pat : string) (c : celula) : bool :=
  match c with
  | CTexto s => contem_ci pat s
  | _ => false
  end.

(** The [.str] accessor exists on a column of [object] dtype: one that
    holds text, or mixes numbers with dates. *)
Definition dtype_object (col : list celula) : bool :=
  existsb (fun c => match c with CTexto _ => true | _ => false end) col
  || (existsb (fun c => match c with CInteiro _ | CNumero _ => true | _ => false end) col
      && existsb (fun c => match c with CData _ => true | _ => false end) col).

Definition falta (c : celula) : bool :=
  match c with
  | CVazia => true
  | CNumero x => is_nan x
  | _ => false
  end.

Definition celula_eqb (a b : celula) : bool :=
  match a, b with
  | CVazia, CVazia => true
  | CTexto s, CTexto t => String.eqb s t
  | CInteiro n, CInteiro m => (n =? m)%Z
  | CNumero x, CNumero y => feqb x y
  | CInteiro n, CNumero y => feqb (de_int n) y
  | CNumero x, CInteiro m => feqb x (de_int m)
  | CData d, CData e =>
      ((year d =? year e) && (month d =? month e) && (day d =? day e))%Z
  | _, _ => false
  end.

(** The months from the foundation to the physical end. *)
Definition meses (fundacao fim_fisico : option Data) : celula :=
  match fundacao, fim_fisico with
  | Some f, Some t =>
      let diff := ((year t - year f) * 12 + (month t - month f))%Z in
      let diff := if (day t <? day f)%Z then (diff - 1)%Z else diff in
      CInteiro (Z.max 0 diff)
  | _, _ => CVazia
  end.

(** The entries of [serie] at the rows where [mascara] holds. *)
Definition onde {A : Type} (serie : list A) (mascara : list bool) : list A :=
  map fst (List.filter snd (combine serie mascara)).

Section Datas.
(** [pd.to_datetime(col, errors="coerce", dayfirst=True)] on a column that
    holds something other than dates and blanks. *)
Variable to_datetime : list celula -> list (option Data).

Definition so_datas (col : list celula) : bool :=
  forallb (fun c => match c with CData _ | CVazia => true | _ => false end) col.

Definition _convert_excel_dates (series : list celula) : list (option Data) :=
  match series with
  | [] => []
  | _ =>
      if so_datas series
      then map (fun c => match c with CData d => Some d | _ => None end) series
      else to_datetime series
  end.

(** [df.get(c, pd.Series([pd.NaT] * len(df)))] *)
Definition coluna_ou_vazia (df : Folha) (c : string) : list celula :=
  if pertence c (colunas df) then coluna df c
  else map (fun _ => CVazia) (registros df).

(** [_calculate_work_duration].  The boolean masks are built on the rows of
    one group and applied to the series of the whole table: pandas aligns
    them by row label and raises [IndexingError] when the group leaves rows
    of the table out, so the loop goes through only when one work holds
    every row.  A label that the renaming produced twice makes the lookups
    raise. *)
Definition _calculate_work_duration (df : Folha) : resultado Folha :=
  if vazia df || negb (pertence "Obra" (colunas df))
  then Ok (com_coluna df Duracao_obra (map (fun _ => CVazia) (registros df)))
  else if (1 <? ocorrencias Inicio (colunas df))%nat
  then Excecao "ValueError: to assemble mappings requires at least that [year, month, day] be specified"
  else if (1 <? ocorrencias Termino (colunas df))%nat
  then Excecao "ValueError: to assemble mappings requires at least that [year, month, day] be specified"
  else if (1 <? ocorrencias "Obra" (colunas df))%nat
  then Excecao "ValueError: Grouper for 'Obra' not 1-dimensional"
  else
    let inicio := _convert_excel_dates (coluna_ou_vazia df Inicio) in
    let termino := _convert_excel_dates (coluna_ou_vazia df Termino) in
    let obras := coluna df "Obra" in
    match List.filter (fun c => negb (falta c)) obras with
    | [] => Ok (com_coluna df Duracao_obra (map (fun _ => CVazia) (registros df)))
    | obra :: _ =>
        if negb (pertence "Nome" (colunas df)) then Excecao "KeyError: 'Nome'"
        else if (1 <? ocorrencias "Nome" (colunas df))%nat
        then Excecao "AttributeError: 'DataFrame' object has no attribute 'str'"
        else if negb (dtype_object (coluna df "Nome"))
        then Excecao "AttributeError: Can only use .str accessor with string values!"
        else if forallb (celula_eqb obra) obras
        then
          let nomes := coluna df "Nome" in
          let fundacao := minimo (onde inicio (map (str_contains Fundacao) nomes)) in
          let fim_fisico := maximo (onde termino (map (str_contains Fim_Fisico) nomes)) in
          Ok (com_coluna df Duracao_obra
                         (map (fun _ => meses fundacao fim_fisico) (registros df)))
        else Excecao "IndexingError: Unalignable boolean Series provided as indexer (index of the boolean Series and of the indexed object do not match)."
    end.

(** ** One sheet, one file, the batch *)

(** The columns labelled [c], each as the list of its cells. *)
Fixpoint colunas_de (c : string) (cols : list string) (i : nat) : list nat :=
  match cols with
  | [] => []
  | x :: resto =>
      if String.eqb x c then i :: colunas_de c resto (S i) else colunas_de c resto (S i)
  end.

(** [df[TARGET_COLS]]: for each label in turn, every column that carries
    it. *)
Definition selecionar (df : Folha) (alvo : list string) : Folha :=
  let posicoes := flat_map (fun c => map (pair c) (colunas_de c (colunas df) 0)) alvo in
  {| colunas := map fst posicoes;
     registros := map (fun linha => map (fun ci => nth (snd ci) linha CVazia) posicoes)
                      (registros df) |}.

(** [for c in TARGET_COLS: if c not in df.columns: df[c] = pd.NA] *)
Definition completar (df : Folha) (alvo : list string) : Folha :=
  fold_left (fun acc c =>
               if pertence c (colunas acc) then acc
               else com_coluna acc c (map (fun _ => CVazia) (registros acc)))
            alvo df.

Definition _ensure_and_reorder (df : Folha) (arquivo_name : string) : resultado Folha :=
  if vazia df then Ok {| colunas := TARGET_COLS; registros := [] |}
  else
    match _calculate_work_duration (_normalize_columns df) with
    | Excecao e => Excecao e
    | Ok df =>
        let df := com_coluna df "Arquivo" (map (fun _ => CTexto arquivo_name) (registros df)) in
        Ok (selecionar (completar df TARGET_COLS) TARGET_COLS)
    end.

(** [df.head(n)] *)
Definition head (n : nat) (df : Folha) : Folha :=
  {| colunas := colunas df; registros := firstn n (registros df) |}.

(** The frames of a list of results, or the first exception. *)
Fixpoint todos_ok {A : Type} (rs : list (resultado A)) : resultado (list A) :=
  match rs with
  | [] => Ok []
  | Excecao e :: _ => Excecao e
  | Ok a :: resto =>
      match todos_ok resto with
      | Ok outros => Ok (a :: outros)
      | Excecao e => Excecao e
      end
  end.

(** [_process_excel_file]: a workbook that cannot be read gives a warning
    and no frame ([_read_excel_file] catches the exception); an exception
    raised while a sheet is treated is not caught. *)
Definition _process_excel_file (file : Upload Folha) : resultado (list Folha) :=
  match conteudo file with
  | Excecao _ => Ok []
  | Ok sheets =>
      todos_ok (map (fun sd => _ensure_and_reorder (head TOP_N (snd sd)) (name file)) sheets)
  end.

(** [pd.concat(compiled, ignore_index=True)] of frames selected by
    [TARGET_COLS]: the rows one after the other when the frames have the
    same labels; frames whose labels differ have a repeated label among
    them, which [concat] refuses. *)
Definition concat (frames : list Folha) : resultado Folha :=
  match frames with
  | [] => Ok {| colunas := TARGET_COLS; registros := [] |}
  | f :: _ =>
      if forallb (fun g => if list_eq_dec string_dec (colunas g) (colunas f)
                           then true else false) frames
      then Ok {| colunas := colunas f; registros := flat_map registros frames |}
      else Excecao "InvalidIndexError: Reindexing only valid with uniquely valued Index objects"
  end.

(** [processar_arquivos], with [ordem] the order in which the workers
    finish, as positions in the list of files: [as_completed] hands the
    results over in that order, and they are consolidated as they come. *)
Definition processar_arquivos (ordem : list nat) (files : list (Upload Folha))
  : resultado Folha :=
  let files := firstn MAX_FILES files in
  let results :=
    todos_ok (map (fun i => match files !! i with
                            | Some f => _process_excel_file f
                            | None => Ok []
                            end) ordem) in
  match results with
  | Excecao e => Excecao e
  | Ok results => concat (List.concat results)
  end.

End Datas.

(** ** Sheet names of the workbook written *)

(** The slice [s[:k]]: a negative [k] counts from the end. *)
Definition ate (k : Z) (s : string) : string :=
  if (k <? 0)%Z then substring 0 (Z.to_nat (Z.of_nat (String.length s) + k)) s
  else substring 0 (Z.to_nat k) s.

(** [base if len(base) <= max_chars else f"{base[:max_chars-3]}..."] *)
Definition _shorten_filename (fn : string) (max_chars : nat) : string :=
  if (String.length fn <=? max_chars)%nat then fn
  else ate (Z.of_nat max_chars - 3) fn +:+ "...".

(** The class [[:\\/\?\*\[\]]]. *)
Definition char_proibido (c : ascii) : bool :=
  (Ascii.eqb c ":" || Ascii.eqb c "\" || Ascii.eqb c "/" || Ascii.eqb c "?"
   || Ascii.eqb c "*" || Ascii.eqb c "[" || Ascii.eqb c "]")%char.

Fixpoint trocar_proibidos (s : string) : string :=
  match s with
  | "" => ""
  | String c resto =>
      String (if char_proibido c then "_"%char else c) (trocar_proibidos resto)
  end.

(** [s.rstrip(".")] *)
Fixpoint rstrip_pontos (s : string) : string :=
  match s with
  | "" => ""
  | String c resto =>
      let r := rstrip_pontos resto in
      if Ascii.eqb c "." && String.eqb r "" then "" else String c r
  end.

Definition _sanitize_sheet_name (nome : string) : string :=
  substring 0 EXCEL_SHEETNAME_MAX (rstrip_pontos (trocar_proibidos nome)).

End Marco.

(* ====================================================================== *)
(** * Reading the schedules of the PP report ([pp]) *)
(* ====================================================================== *)

Module PP.
Import PyNum Texto Numeros Tabela.
Local Open Scope string_scope.

Definition MAX_FILES : nat := 1000.

Definition REQUIRED_COLS_PP : list string :=
  ["SimulacaoId"; "IdEmpreendimento"; "NET"; "Nome"; "M"; "Custo"].

(** [parse_number_br]: every value that is not missing goes through
    [str(value)]. *)
Definition parse_number_br (value : valor) : option float :=
  if isna value then None else
  let s := py_strip (py_str value) in
  if String.eqb s "" then None else
  let s := manter char_numero s in
  if String.eqb s "" || String.eqb s "-" || String.eqb s "," || String.eqb s "."
  then None else
  let last_comma := rfind "," s in
  let last_dot := rfind "." s in
  let dec := (if (last_dot <? last_comma)%Z then "," else ".")%char in
  let parts := rsplit1 dec s in
  let num_str :=
    manter char_inteiro (nth 0 parts "")
    +:+ (if (List.length parts =? 2)%nat
         then "." +:+ manter is_digit (nth 1 parts "")
         else "") in
  py_float num_str.

(** ** The parquet cache *)

(** A file of the cache directory: a table that [pd.read_parquet] gives
    back, or bytes that it cannot read. *)
Inductive entrada : Type :=
| Legivel (df : DataFrame)
| Corrompida.

(** The cache directory, by file name: [CACHE_DIR / f"{file_name}.parquet"]. *)
Definition cache : Type := gmap string entrada.

(** What [df.to_parquet(cache_name)] leaves behind. *)
Inductive escrita : Type :=
| Gravou
| Estragou
| Nada.

(** [usecols=lambda c: c.strip() in REQUIRED_COLS_PP] *)
Definition usecols (df : DataFrame) : DataFrame :=
  let manter_col := map (fun c => pertence (py_strip c) REQUIRED_COLS_PP) (columns df) in
  let filtrar {A : Type} (l : list A) : list A :=
    map fst (List.filter snd (combine l manter_col)) in
  {| columns := filtrar (columns df); linhas := map filtrar (linhas df) |}.

Section Disco.
(** Whether the parquet writer accepts a table. *)
Variable to_parquet : DataFrame -> escrita.

(** [_read_excel_with_cache] over the cache directory.  [file_bytes] is
    given as what [pd.read_excel(..., sheet_name=None, dtype=str)] makes of
    the bytes, before the column filter. *)
Definition _read_excel_with_cache (disco : cache)
           (file_bytes : resultado (list (string * DataFrame))) (file_name : string)
  : resultado (list (string * DataFrame)) * cache :=
  let ler :=
    match file_bytes with
    | Excecao e => (Excecao e, disco)
    | Ok xls =>
        let xls := map (fun sd => (fst sd, usecols (snd sd))) xls in
        match xls with
        | [] => (Excecao "IndexError: list index out of range", disco)
        | (sheet, df) :: _ =>
            let disco :=
              match to_parquet df with
              | Gravou => <[file_name := Legivel df]> disco
              | Estragou => <[file_name := Corrompida]> disco
              | Nada => disco
              end in
            (Ok [(file_name +:+ "::" +:+ sheet, df)], disco)
        end
    end in
  match disco !! file_name with
  | Some (Legivel df) => (Ok [(file_name +:+ "::Planilha1", df)], disco)
  | Some Corrompida => ler
  | None => ler
  end.

(** One turn of [ler_varios_excels_pp]: the result of a worker is merged
    into [dfs], a worker that raised is skipped. *)
Definition ler_passo (acc : list (string * DataFrame) * cache) (f : Upload DataFrame)
  : list (string * DataFrame) * cache :=
  match _read_excel_with_cache (snd acc) (conteudo f) (name f) with
  | (Ok result, disco) => (dict_update (fst acc) result, disco)
  | (Excecao _, disco) => (fst acc, disco)
  end.

(** [ler_varios_excels_pp], the workers taken one after the other in the
    order of submission, which is also the order in which their results are
    collected. *)
Definition ler_varios_excels_pp (disco : cache) (files : list (Upload DataFrame))
  : list (string * DataFrame) * cache :=
  fold_left ler_passo (firstn MAX_FILES files) ([], disco).

End Disco.

End PP.

(* ====================================================================== *)
(** * Facts about float comparison and the first maximum *)
(* ====================================================================== *)

Module PyNumFacts.
Import PyNum.

















(** ** The first maximum *)





End PyNumFacts.

(* ====================================================================== *)
(** * The closure correction of one group *)
(* ====================================================================== *)

Module FechamentoFacts.
Import PyNum PyNumFacts Texto Numeros Fechamento.
Local Open Scope string_scope.

(** ** Lengths *)

Section Comprimentos.
Variable soma : list float -> float.

Lemma preencher_length (grupo : list (option float)) :
  List.length (preencher grupo) = List.length grupo.
Proof. unfold preencher. apply length_map. Qed.

Lemma reescalar_length (vals : list float) :
  List.length (reescalar soma vals) = List.length vals.
Proof.
  unfold reescalar. cbn zeta.
  destruct (fltb _ _); now rewrite ?length_map.
Qed.

Lemma empurrar_length (vals : list float) :
  List.length (empurrar_diferenca soma vals) = List.length vals.
Proof.
  unfold empurrar_diferenca. cbn zeta.
  destruct (_ && _); [apply length_insert|reflexivity].
Qed.

Lemma garantia_length (vals : list float) :
  List.length (garantia_final soma vals) = List.length vals.
Proof.
  unfold garantia_final. cbn zeta.
  destruct (_ && _); [apply length_insert|reflexivity].
Qed.

Lemma ajustar_grupo_length (grupo : list (option float)) :
  List.length (ajustar_grupo soma grupo) = List.length grupo.
Proof.
  unfold ajustar_grupo.
  now rewrite garantia_length, empurrar_length, reescalar_length, preencher_length.
Qed.

End Comprimentos.

(** ** A value too large for a float *)

(** The text of a cell: [1] followed by 400 zeros. *)
Definition dez_400 : string := String "1" (string_of_list_ascii (repeat "0"%char 400)).

(** C1, evaluated on a group of two rows whose [VPObra] cells are the text
    [1] followed by 400 zeros and the text [1].  The first cell parses to
    the float infinity, so the inputs are nonnegative with a positive sum.
    The rescale factor is [1/inf = 0.0], the first value becomes
    [inf * 0.0], not a number, and every later guard is a comparison that
    is false on it: the group is written back as [nan, 0.0], under either
    summation, and its sum is not within 0.001 of 1.000. *)
Theorem C1_closure_fails_on_overflowing_value :
  let grupo := [_parse_number_br (VStr dez_400); _parse_number_br (VStr "1")] in
  grupo = [Some (S754_infinity false); Some um] /\
  Forall (fun v => fleb zero v = true) (preencher grupo) /\
  fltb zero (py_sum (preencher grupo)) = true /\
  fltb zero (py_sum_compensada (preencher grupo)) = true /\
  ajustar_grupo py_sum grupo = [S754_nan; zero] /\
  ajustar_grupo py_sum_compensada grupo = [S754_nan; zero] /\
  fleb (fabs (fsub (py_sum (ajustar_grupo py_sum grupo)) um)) (literal 1 1000) = false /\
  fleb (fabs (fsub (py_sum_compensada (ajustar_grupo py_sum_compensada grupo)) um))
       (literal 1 1000) = false /\
  py_round S754_nan 3 = S754_nan.
Proof.
  cbn zeta.
  assert (E : [_parse_number_br (VStr dez_400); _parse_number_br (VStr "1")]
              = [Some (S754_infinity false); Some um]) by (vm_compute; reflexivity).
  rewrite E. split; [reflexivity|].
  split; [repeat constructor|].
  repeat split; vm_compute; reflexivity.
Qed.

(** ** A group whose values are all zero *)

(** C2, evaluated on the group [[0.0, 0.0]]: the rescale multiplies zeros
    by [1/len] and leaves zeros, so the whole target is pushed onto the
    first row.  The group still sums to 1.000, but it is not an equal
    split. *)
Theorem C2_zero_group_first_row_takes_all :
  ajustar_grupo py_sum [Some zero; Some zero] = [um; zero] /\
  ajustar_grupo py_sum_compensada [Some zero; Some zero] = [um; zero] /\
  py_sum (ajustar_grupo py_sum [Some zero; Some zero]) = um /\
  py_sum_compensada (ajustar_grupo py_sum_compensada [Some zero; Some zero]) = um /\
  feqb (nth 0 (ajustar_grupo py_sum [Some zero; Some zero]) zero)
       (nth 1 (ajustar_grupo py_sum [Some zero; Some zero]) zero) = false /\
  feqb (nth 0 (ajustar_grupo py_sum_compensada [Some zero; Some zero]) zero)
       (nth 1 (ajustar_grupo py_sum_compensada [Some zero; Some zero]) zero) = false.
Proof.
  repeat split; vm_compute; reflexivity.
Qed.

(** ** Where the residual goes *)




End FechamentoFacts.

(* ====================================================================== *)
(** * The numeric parser: the rightmost separator is the decimal point *)
(* ====================================================================== *)

Module NumerosFacts.
Import PyNum Texto Numeros.
Local Open Scope string_scope.

(** ** Stripping *)

Lemma lstrip_sem_espaco (c : ascii) (s : string) :
  is_space c = false -> lstrip (String c s) = String c s.
Proof. intros H. simpl. now rewrite H. Qed.

Lemma lstrip_cabeca (s : string) :
  match lstrip s with
  | "" => True
  | String c _ => is_space c = false
  end.
Proof.
  induction s as [|c s IH]; simpl; [exact I|].
  destruct (is_space c) eqn:E; [exact IH|exact E].
Qed.

Lemma rstrip_idem (s : string) : rstrip (rstrip s) = rstrip s.
Proof.
  induction s as [|c s IH]; simpl; [reflexivity|].
  destruct (is_space c && String.eqb (rstrip s) "") eqn:E; [reflexivity|].
  simpl. now rewrite IH, E.
Qed.

Lemma rstrip_cabeca (c : ascii) (s : string) :
  is_space c = false -> rstrip (String c s) = String c (rstrip s).
Proof. intros H. simpl. now rewrite H. Qed.

Lemma py_strip_idem (s : string) : py_strip (py_strip s) = py_strip s.
Proof.
  unfold py_strip. pose proof (lstrip_cabeca s) as H.
  destruct (lstrip s) as [|c t]; [reflexivity|].
  rewrite (rstrip_cabeca c t H), (lstrip_sem_espaco c _ H).
  rewrite <- (rstrip_cabeca c t H). apply rstrip_idem.
Qed.

Lemma is_space_eqb (a c : ascii) :
  is_space a = true -> is_space c = false -> Ascii.eqb a c = false.
Proof.
  intros Ha Hc. destruct (Ascii.eqb a c) eqn:E; [|reflexivity].
  apply Ascii.eqb_eq in E. congruence.
Qed.

Lemma contem_lstrip (c : ascii) (s : string) :
  is_space c = false -> contem c (lstrip s) = contem c s.
Proof.
  intros Hc. induction s as [|a s IH]; simpl; [reflexivity|].
  destruct (is_space a) eqn:E; [|reflexivity].
  now rewrite IH, (is_space_eqb a c E Hc).
Qed.

Lemma contem_rstrip (c : ascii) (s : string) :
  is_space c = false -> contem c (rstrip s) = contem c s.
Proof.
  intros Hc. induction s as [|a s IH]; simpl; [reflexivity|].
  destruct (is_space a) eqn:E; simpl.
  - destruct (String.eqb (rstrip s) "") eqn:Er; simpl.
    + apply String.eqb_eq in Er. rewrite Er in IH. simpl in IH.
      now rewrite <- IH, (is_space_eqb a c E Hc).
    + now rewrite IH.
  - now rewrite IH.
Qed.

Lemma contem_py_strip (c : ascii) (s : string) :
  is_space c = false -> contem c (py_strip s) = contem c s.
Proof.
  intros Hc. unfold py_strip.
  now rewrite contem_rstrip, contem_lstrip.
Qed.

(** ** Strings made of one character class *)

Lemma todos_impl (P R : ascii -> bool) (s : string) :
  (forall c, P c = true -> R c = true) -> todos P s = true -> todos R s = true.
Proof.
  intros HPR. induction s as [|c s IH]; simpl; [reflexivity|].
  intros H. apply andb_true_iff in H as [Hc Hs].
  now rewrite (HPR c Hc), IH.
Qed.

Lemma manter_todos (P : ascii -> bool) (s : string) :
  todos P s = true -> manter P s = s.
Proof.
  induction s as [|c s IH]; simpl; [reflexivity|].
  intros H. apply andb_true_iff in H as [Hc Hs].
  now rewrite Hc, IH.
Qed.

Lemma todos_app (P : ascii -> bool) (a b : string) :
  todos P (a +:+ b) = todos P a && todos P b.
Proof.
  induction a as [|c a IH]; simpl; [reflexivity|].
  now rewrite IH, andb_assoc.
Qed.

Lemma rstrip_todos (P : ascii -> bool) (s : string) :
  (forall c, P c = true -> is_space c = false) ->
  todos P s = true -> rstrip s = s.
Proof.
  intros HP. induction s as [|c s IH]; simpl; [reflexivity|].
  intros H. apply andb_true_iff in H as [Hc Hs].
  now rewrite (HP c Hc), IH.
Qed.

Lemma lstrip_todos (P : ascii -> bool) (s : string) :
  (forall c, P c = true -> is_space c = false) ->
  todos P s = true -> lstrip s = s.
Proof.
  intros HP. destruct s as [|c s]; simpl; [reflexivity|].
  intros H. apply andb_true_iff in H as [Hc Hs].
  now rewrite (HP c Hc).
Qed.

Lemma py_strip_todos (P : ascii -> bool) (s : string) :
  (forall c, P c = true -> is_space c = false) ->
  todos P s = true -> py_strip s = s.
Proof.
  intros HP H. unfold py_strip.
  rewrite (lstrip_todos P s HP H). now apply (rstrip_todos P).
Qed.

Lemma contem_todos (P : ascii -> bool) (c : ascii) (s : string) :
  P c = false -> todos P s = true -> contem c s = false.
Proof.
  intros Hc. induction s as [|a s IH]; simpl; [reflexivity|].
  intros H. apply andb_true_iff in H as [Ha Hs].
  rewrite (IH Hs), orb_false_r.
  destruct (Ascii.eqb a c) eqn:E; [|reflexivity].
  apply Ascii.eqb_eq in E. congruence.
Qed.

Lemma char_numero_sem_espaco (c : ascii) : char_numero c = true -> is_space c = false.
Proof.
  unfold char_numero, is_digit, is_space, codigo.
  destruct (Ascii.eqb c ",") eqn:E1; [apply Ascii.eqb_eq in E1; now subst|].
  destruct (Ascii.eqb c ".") eqn:E2; [apply Ascii.eqb_eq in E2; now subst|].
  destruct (Ascii.eqb c "-") eqn:E3; [apply Ascii.eqb_eq in E3; now subst|].
  rewrite !orb_false_r. cbn zeta. intros H.
  apply andb_true_iff in H as [H1 H2].
  apply Nat.leb_le in H1, H2.
  repeat match goal with
         | |- context [(?a <=? ?b)%nat] =>
             let E := fresh in destruct (Nat.leb_spec a b) as [E|E]; try lia
         | |- context [(?a =? ?b)%nat] =>
             let E := fresh in destruct (Nat.eqb_spec a b) as [E|E]; try lia
         end; reflexivity.
Qed.

Lemma char_inteiro_numero (c : ascii) : char_inteiro c = true -> char_numero c = true.
Proof.
  unfold char_inteiro, char_numero. intros H.
  apply orb_true_iff in H as [H|H]; rewrite H; simpl; now rewrite ?orb_true_r.
Qed.

(** ** The last occurrence *)

Lemma cortar_ultimo_ausente (c : ascii) (s : string) :
  contem c s = false -> cortar_ultimo c s = None.
Proof.
  induction s as [|a s IH]; simpl; [reflexivity|].
  intros H. apply orb_false_iff in H as [Ha Hs].
  now rewrite (IH Hs), Ha.
Qed.

Lemma cortar_ultimo_app (c : ascii) (a b : string) :
  contem c b = false -> cortar_ultimo c (a +:+ String c b) = Some (a, b).
Proof.
  intros Hb. induction a as [|x a IH]; simpl.
  - now rewrite (cortar_ultimo_ausente c b Hb), Ascii.eqb_refl.
  - now rewrite IH.
Qed.

Lemma rfind_ausente (c : ascii) (s : string) :
  contem c s = false -> rfind c s = (-1)%Z.
Proof.
  induction s as [|a s IH]; simpl; [reflexivity|].
  intros H. apply orb_false_iff in H as [Ha Hs].
  now rewrite (IH Hs), Ha.
Qed.

Lemma rfind_limites (c : ascii) (s : string) :
  (-1 <= rfind c s < Z.of_nat (String.length s))%Z.
Proof.
  induction s as [|a s IH]; simpl String.length; simpl rfind; [lia|].
  destruct (Z.eqb_spec (rfind c s) (-1)); [destruct (Ascii.eqb a c)|]; lia.
Qed.

Lemma rfind_app_sep (c : ascii) (a b : string) :
  contem c b = false -> rfind c (a +:+ String c b) = Z.of_nat (String.length a).
Proof.
  intros Hb. induction a as [|x a IH]; simpl String.length; simpl.
  - now rewrite (rfind_ausente c b Hb), Ascii.eqb_refl.
  - rewrite IH. destruct (Z.eqb_spec (Z.of_nat (String.length a)) (-1)); lia.
Qed.

Lemma rfind_app_outro (c sep : ascii) (a b : string) :
  contem c b = false -> Ascii.eqb sep c = false ->
  rfind c (a +:+ String sep b) = rfind c a.
Proof.
  intros Hb Hsep. induction a as [|x a IH]; simpl.
  - now rewrite (rfind_ausente c b Hb), Hsep.
  - now rewrite IH.
Qed.

Lemma eqb_app_sep_curto (a b : string) (sep x : ascii) :
  a <> "" \/ b <> "" -> String.eqb (a +:+ String sep b) (String x "") = false.
Proof.
  intros H. destruct a as [|c a]; simpl.
  - destruct b as [|d b]; [destruct H; congruence|].
    destruct (Ascii.eqb sep x); reflexivity.
  - destruct (Ascii.eqb c x); [|reflexivity].
    destruct a; reflexivity.
Qed.

Lemma eqb_app_sep_vazio (a b : string) (sep : ascii) :
  String.eqb (a +:+ String sep b) "" = false.
Proof. destruct a; reflexivity. Qed.

(** ** Characters outside the numeric class *)

Lemma manter_app (P : ascii -> bool) (a b : string) :
  manter P (a +:+ b) = manter P a +:+ manter P b.
Proof.
  induction a as [|c a IH]; simpl; [reflexivity|].
  destruct (P c); simpl; now rewrite IH.
Qed.

Lemma todos_manter (P : ascii -> bool) (s : string) : todos P (manter P s) = true.
Proof.
  induction s as [|c s IH]; simpl; [reflexivity|].
  destruct (P c) eqn:E; simpl; [now rewrite E|exact IH].
Qed.

Lemma manter_manter (P R : ascii -> bool) (s : string) :
  (forall c, R c = true -> P c = true) ->
  manter R (manter P s) = manter R s.
Proof.
  intros H. induction s as [|c s IH]; simpl; [reflexivity|].
  destruct (P c) eqn:E; simpl.
  - now rewrite IH.
  - destruct (R c) eqn:E'; [|exact IH]. rewrite (H c E') in E. discriminate.
Qed.

Lemma manter_lstrip (P : ascii -> bool) (s : string) :
  (forall c, P c = true -> is_space c = false) ->
  manter P (lstrip s) = manter P s.
Proof.
  intros H. induction s as [|c s IH]; simpl; [reflexivity|].
  destruct (is_space c) eqn:E; [|reflexivity].
  destruct (P c) eqn:E'; [|exact IH]. rewrite (H c E') in E. discriminate.
Qed.

Lemma manter_rstrip (P : ascii -> bool) (s : string) :
  (forall c, P c = true -> is_space c = false) ->
  manter P (rstrip s) = manter P s.
Proof.
  intros H. induction s as [|c s IH]; simpl; [reflexivity|].
  destruct (is_space c && String.eqb (rstrip s) "") eqn:E.
  - apply andb_true_iff in E as [E1 E2]. apply String.eqb_eq in E2.
    rewrite E2 in IH. simpl in IH.
    destruct (P c) eqn:E'; [rewrite (H c E') in E1; discriminate|exact IH].
  - simpl. destruct (P c); now rewrite IH.
Qed.

Lemma manter_py_strip (P : ascii -> bool) (s : string) :
  (forall c, P c = true -> is_space c = false) ->
  manter P (py_strip s) = manter P s.
Proof.
  intros H. unfold py_strip. now rewrite manter_rstrip, manter_lstrip.
Qed.

Lemma manter_vazio_strip (P : ascii -> bool) (s : string) :
  (forall c, P c = true -> is_space c = false) ->
  py_strip s = "" -> manter P s = "".
Proof.
  intros H E. rewrite <- (manter_py_strip P s H), E. reflexivity.
Qed.

Lemma contem_manter (P : ascii -> bool) (c : ascii) (s : string) :
  P c = true -> contem c (manter P s) = contem c s.
Proof.
  intros H. induction s as [|a s IH]; simpl; [reflexivity|].
  destruct (P a) eqn:E; simpl; [now rewrite IH|].
  destruct (Ascii.eqb_spec a c) as [->|_]; [congruence|exact IH].
Qed.

(** Whatever is not a digit, a comma, a period or a minus sign is
    ignored. *)
Lemma parse_texto_manter (s : string) :
  parse_texto s = parse_texto (manter char_numero s).
Proof.
  unfold parse_texto.
  rewrite (py_strip_todos _ _ char_numero_sem_espaco (todos_manter char_numero s)).
  rewrite (manter_todos _ _ (todos_manter char_numero s)).
  rewrite (manter_py_strip _ s char_numero_sem_espaco).
  destruct (String.eqb (py_strip s) "") eqn:E.
  - apply String.eqb_eq in E.
    now rewrite (manter_vazio_strip _ s char_numero_sem_espaco E).
  - destruct (String.eqb (manter char_numero s) "") eqn:E'; reflexivity.
Qed.

(** ** The separator rule *)

(** On text made of digits, commas, periods and minus signs. *)
Lemma parse_separador_numerico (a b : string) (sep : ascii) :
  sep = ","%char \/ sep = "."%char ->
  todos char_numero a = true ->
  todos char_inteiro b = true ->
  parse_texto (a +:+ String sep b)
  = py_float (manter char_inteiro a
              +:+ (if String.eqb (manter is_digit b) "" then ""
                   else "." +:+ manter is_digit b)).
Proof.
  intros Hsep Ha Hb.
  assert (Hsepn : char_numero sep = true) by (destruct Hsep; subst; reflexivity).
  assert (Hall : todos char_numero (a +:+ String sep b) = true).
  { rewrite todos_app. simpl. rewrite Ha, Hsepn.
    now rewrite (todos_impl _ _ b char_inteiro_numero Hb). }
  assert (Hbc : contem "," b = false) by (now apply (contem_todos char_inteiro)).
  assert (Hbd : contem "." b = false) by (now apply (contem_todos char_inteiro)).
  unfold parse_texto.
  rewrite (py_strip_todos _ _ char_numero_sem_espaco Hall).
  rewrite eqb_app_sep_vazio. cbn zeta.
  rewrite (manter_todos _ _ Hall), eqb_app_sep_vazio.
  assert (Hcaso : (a = "" /\ b = "") \/ (a <> "" \/ b <> "")).
  { destruct a; [destruct b|]; [left; now split|right; right; congruence|
                                right; left; congruence]. }
  destruct Hcaso as [[-> ->]|Hcaso]; [destruct Hsep; subst sep; reflexivity|].
  rewrite !eqb_app_sep_curto by exact Hcaso. cbn [orb].
  pose proof (rfind_limites "," a) as Lc. pose proof (rfind_limites "." a) as Ld.
  replace (Z.of_nat (String.length a) =? -1)%Z with false in *
    by (symmetry; apply Z.eqb_neq; lia).
  destruct Hsep; subst sep.
  - rewrite (rfind_app_sep "," a b Hbc), (rfind_app_outro "." "," a b Hbd eq_refl).
    replace (Z.of_nat (String.length a) =? -1)%Z with false
      by (symmetry; apply Z.eqb_neq; lia).
    replace (rfind "." a <? Z.of_nat (String.length a))%Z with true
      by (symmetry; apply Z.ltb_lt; lia).
    cbn [andb]. unfold rsplit1.
    rewrite (cortar_ultimo_app "," a b Hbc). reflexivity.
  - rewrite (rfind_app_sep "." a b Hbd), (rfind_app_outro "," "." a b Hbc eq_refl).
    replace (Z.of_nat (String.length a) =? -1)%Z with false
      by (symmetry; apply Z.eqb_neq; lia).
    rewrite andb_false_r.
    replace (Z.of_nat (String.length a) <? rfind "," a)%Z with false
      by (symmetry; apply Z.ltb_ge; lia).
    unfold rsplit1.
    rewrite (cortar_ultimo_app "." a b Hbd). reflexivity.
Qed.

Lemma todos_inteiro_sem_separador (b : string) :
  contem "," b = false -> contem "." b = false ->
  todos char_inteiro (manter char_numero b) = true.
Proof.
  induction b as [|c b IH]; simpl; intros Hc Hd; [reflexivity|].
  apply orb_false_iff in Hc as [Hc1 Hc2]. apply orb_false_iff in Hd as [Hd1 Hd2].
  destruct (char_numero c) eqn:E; [|now apply IH].
  simpl. rewrite (IH Hc2 Hd2), andb_true_r.
  unfold char_numero in E. unfold char_inteiro.
  rewrite Hc1, Hd1 in E.
  destruct (is_digit c), (Ascii.eqb c "-"); try discriminate; reflexivity.
Qed.

(** The separator rule on any text: with [sep] the rightmost comma or
    period of the text, the digits and minus signs on its left are the
    integer part (its commas, periods and every other character are
    dropped) and the digits on its right are the fraction. *)
Lemma parse_separador_direito (a b : string) (sep : ascii) :
  sep = ","%char \/ sep = "."%char ->
  contem "," b = false -> contem "." b = false ->
  parse_texto (a +:+ String sep b)
  = py_float (manter char_inteiro a
              +:+ (if String.eqb (manter is_digit b) "" then ""
                   else "." +:+ manter is_digit b)).
Proof.
  intros Hsep Hc Hd.
  assert (Hsepn : char_numero sep = true) by (destruct Hsep; subst; reflexivity).
  rewrite parse_texto_manter, manter_app. simpl. rewrite Hsepn.
  rewrite (parse_separador_numerico _ _ sep Hsep (todos_manter _ a)
             (todos_inteiro_sem_separador b Hc Hd)).
  rewrite (manter_manter char_numero char_inteiro a char_inteiro_numero).
  rewrite (manter_manter char_numero is_digit b).
  - reflexivity.
  - intros c Hcd. unfold char_numero. now rewrite Hcd.
Qed.

Lemma parse_strip (s : string) : parse_texto (py_strip s) = parse_texto s.
Proof. unfold parse_texto. now rewrite py_strip_idem. Qed.

(** The percentage variant on text: the plain value, divided by 100 exactly
    when the text holds a percent sign. *)
Lemma parse_pct_texto (s : string) :
  _parse_number_br_pct (VStr s)
  = option_map (fun val => if contem "%" s then fdiv val (de_int 100) else val)
               (_parse_number_br (VStr s)).
Proof.
  unfold _parse_number_br_pct, _parse_number_br, py_str. cbn [isna].
  rewrite parse_strip, (contem_py_strip "%" s eq_refl).
  now destruct (parse_texto s).
Qed.

(** ** The separator rule and the percentage variant *)

(** The float 1e-07. *)
Definition um_decimo_de_milionesimo : float := literal 1 10000000.

(** C4, where it fails: the float [1e-07] holds no percent sign, the plain
    parser returns it unchanged, and the percentage variant, which parses
    the text [str(value)], that is ["1e-07"], finds ["1-07"] after the
    filter and gives a missing value. *)
Lemma C4_percent_variant_differs_on_float :
  str_float um_decimo_de_milionesimo = "1e-07" /\
  contem "%" (str_float um_decimo_de_milionesimo) = false /\
  _parse_number_br (VNum um_decimo_de_milionesimo) = Some um_decimo_de_milionesimo /\
  _parse_number_br_pct (VNum um_decimo_de_milionesimo) = None /\
  ~ (forall value : valor,
       contem "%" (py_str value) = false ->
       _parse_number_br_pct value = _parse_number_br value).
Proof.
  assert (E : str_float um_decimo_de_milionesimo = "1e-07") by (vm_compute; reflexivity).
  assert (Ep : _parse_number_br_pct (VNum um_decimo_de_milionesimo) = None).
  { unfold _parse_number_br_pct, py_str. rewrite E. reflexivity. }
  split; [exact E|]. split; [now rewrite E|]. split; [reflexivity|].
  split; [exact Ep|].
  intros H. specialize (H (VNum um_decimo_de_milionesimo)).
  cbn [py_str] in H. rewrite E, Ep in H. specialize (H eq_refl). discriminate.
Qed.

(** C4, amended.  The rightmost comma or period is the decimal separator
    and every other comma or period is dropped: for any text [a sep b] with
    no comma or period after [sep], the value is that of the digits and
    minus signs of [a], a decimal point, and the digits of [b].  So
    ["1.234,56"] and ["1,234.56"] both give 1234.56, ["-"] and [""] are
    missing, the percentage variant gives 0.12 on ["12%"], and a text
    without a percent sign keeps the plain parsed value. *)
Theorem C4_rightmost_separator_is_decimal :
  (forall (a b : string) (sep : ascii),
      sep = ","%char \/ sep = "."%char ->
      contem "," b = false -> contem "." b = false ->
      _parse_number_br (VStr (a +:+ String sep b))
      = py_float (manter char_inteiro a
                  +:+ (if String.eqb (manter is_digit b) "" then ""
                       else "." +:+ manter is_digit b))) /\
  _parse_number_br (VStr "1.234,56") = Some (literal 123456 100) /\
  _parse_number_br (VStr "1,234.56") = Some (literal 123456 100) /\
  _parse_number_br (VStr "-") = None /\
  _parse_number_br (VStr "") = None /\
  _parse_number_br_pct (VStr "12%") = Some (literal 12 100) /\
  (forall s : string,
      contem "%" s = false ->
      _parse_number_br_pct (VStr s) = _parse_number_br (VStr s)).
Proof.
  split; [exact parse_separador_direito|].
  repeat (split; [vm_compute; reflexivity|]).
  intros s Hs. rewrite parse_pct_texto, Hs.
  now destruct (_parse_number_br (VStr s)).
Qed.

Lemma C4_rightmost_separator_is_decimal_witness :
  _parse_number_br (VStr ("R$ 1.234" +:+ String "," "56 ")) = Some (literal 123456 100) /\
  _parse_number_br_pct (VStr " 0,34 ") = Some (literal 34 100).
Proof.
  pose proof C4_rightmost_separator_is_decimal as (H & _ & _ & _ & _ & _ & Hp).
  split.
  - rewrite (H "R$ 1.234" "56 " ","%char);
      [vm_compute; reflexivity|now left|reflexivity|reflexivity].
  - rewrite (Hp " 0,34 "); [vm_compute; reflexivity|reflexivity].
Defined.

End NumerosFacts.

(* ====================================================================== *)
(** * Production curves: the correction on a whole table *)
(* ====================================================================== *)

Module CurvasFacts.
Import PyNum PyNumFacts Texto Numeros Fechamento FechamentoFacts Tabela Curvas.

Section Correcao.
(** The builtin [sum] of the interpreter, see [Fechamento]. *)
Variable soma : list float -> float.

(** Two tables that differ at most in the column [VPObra]. *)
Definition so_vp_difere (a b : list Curva) : Prop :=
  Forall2 (fun x y => exists v, y = com_VPObra x v) a b.

Lemma com_VPObra_id (l : Curva) : com_VPObra l (VPObra l) = l.
Proof. now destruct l. Qed.

Lemma com_VPObra_twice (l : Curva) (v w : option float) :
  com_VPObra (com_VPObra l v) w = com_VPObra l w.
Proof. reflexivity. Qed.

Lemma so_vp_difere_refl (a : list Curva) : so_vp_difere a a.
Proof.
  induction a as [|x a IH]; constructor; auto.
  exists (VPObra x). now rewrite com_VPObra_id.
Qed.

Lemma so_vp_difere_trans (a b c : list Curva) :
  so_vp_difere a b -> so_vp_difere b c -> so_vp_difere a c.
Proof.
  intros Hab. revert c. induction Hab as [|x y a b [v ->] _ IH]; intros c Hbc.
  - inversion Hbc. constructor.
  - inversion Hbc as [|? z ? c' [w ->] Hbc']; subst.
    constructor; [|now apply IH].
    exists w. apply com_VPObra_twice.
Qed.

Lemma so_vp_difere_insert (a : list Curva) (i : nat) (l : Curva) (v : option float) :
  a !! i = Some l -> so_vp_difere a (<[i := com_VPObra l v]> a).
Proof.
  revert i. induction a as [|x a IH]; intros [|i] H; simpl in *; try discriminate.
  - injection H as ->. constructor; [now exists v|apply so_vp_difere_refl].
  - constructor; [|now apply IH].
    exists (VPObra x). now rewrite com_VPObra_id.
Qed.

Lemma atribuir_so_vp (df : list Curva) (idxs : list nat) (vals : list float) :
  so_vp_difere df (atribuir df idxs vals).
Proof.
  unfold atribuir. generalize (combine idxs vals) as ivs. intros ivs.
  revert df. induction ivs as [|[i v] ivs IH]; intros df; simpl.
  - apply so_vp_difere_refl.
  - destruct (df !! i) as [l|] eqn:E; [|apply IH].
    eapply so_vp_difere_trans; [|apply IH].
    now apply so_vp_difere_insert.
Qed.

Lemma ajustar_so_vp (df : list Curva) :
  so_vp_difere df (_ajustar_vp_obra_com_3_decimais soma df).
Proof.
  unfold _ajustar_vp_obra_com_3_decimais.
  destruct df as [|l0 df0]; [constructor|].
  generalize (groupby (_deduzir_chaves_curva CURVE_REQUIRED_COLS) (l0 :: df0)) as gs.
  generalize (l0 :: df0) as df. intros df gs.
  revert df. induction gs as [|g gs IH]; intros df; simpl.
  - apply so_vp_difere_refl.
  - eapply so_vp_difere_trans; [|apply IH]. apply atribuir_so_vp.
Qed.

(** X1.  The closure correction touches nothing but [VPObra]: the table
    keeps its rows, in the same order, and every other column of every
    row. *)
Theorem correction_changes_only_VPObra (df : list Curva) :
  List.length (_ajustar_vp_obra_com_3_decimais soma df) = List.length df /\
  forall (i : nat) (l : Curva),
    df !! i = Some l ->
    exists v, _ajustar_vp_obra_com_3_decimais soma df !! i = Some (com_VPObra l v).
Proof.
  pose proof (ajustar_so_vp df) as H. split.
  - symmetry. eapply Forall2_length. exact H.
  - intros i l Hi.
    destruct (Forall2_lookup_l _ _ _ _ _ H Hi) as (y & Hy & v & ->).
    now exists v.
Qed.

(** ** Writing a group back *)

Lemma atribuir_length (df : list Curva) (idxs : list nat) (vals : list float) :
  List.length (atribuir df idxs vals) = List.length df.
Proof.
  symmetry. eapply Forall2_length. apply atribuir_so_vp.
Qed.

Lemma atribuir_cons (df : list Curva) (i : nat) (idxs : list nat) (v : float) (vals : list float) :
  atribuir df (i :: idxs) (v :: vals)
  = atribuir (match df !! i with
              | Some l => <[i := com_VPObra l (Some v)]> df
              | None => df
              end) idxs vals.
Proof. reflexivity. Qed.

Lemma atribuir_fora (df : list Curva) (idxs : list nat) (vals : list float) (j : nat) :
  ~ In j idxs -> atribuir df idxs vals !! j = df !! j.
Proof.
  revert df vals. induction idxs as [|i idxs IH]; intros df vals Hj.
  - reflexivity.
  - destruct vals as [|v vals]; [reflexivity|].
    rewrite atribuir_cons, IH by (intros H; apply Hj; now right).
    destruct (df !! i) as [l|]; [|reflexivity].
    apply list_lookup_insert_ne. intros ->. apply Hj. now left.
Qed.

Lemma valores_vp_ext (a b : list Curva) (idxs : list nat) :
  (forall i, In i idxs -> a !! i = b !! i) -> valores_vp a idxs = valores_vp b idxs.
Proof.
  intros H. unfold valores_vp. apply map_ext_in. intros i Hi. now rewrite (H i Hi).
Qed.

Lemma atribuir_valores (df : list Curva) (idxs : list nat) (vals : list float) :
  List.NoDup idxs ->
  (forall i, In i idxs -> (i < List.length df)%nat) ->
  List.length vals = List.length idxs ->
  valores_vp (atribuir df idxs vals) idxs = map Some vals.
Proof.
  revert df vals. induction idxs as [|i idxs IH]; intros df vals Hnd Hlt Hlen.
  - destruct vals; [reflexivity|discriminate].
  - destruct vals as [|v vals]; [discriminate|].
    inversion Hnd as [|? ? Hni Hnd']; subst.
    assert (Hi : (i < List.length df)%nat) by (apply Hlt; now left).
    destruct (lookup_lt_is_Some_2 df i Hi) as [l Hl].
    rewrite atribuir_cons, Hl.
    change (valores_vp ?a (i :: idxs))
      with ((match a !! i with Some l => VPObra l | None => None end)
              :: valores_vp a idxs).
    rewrite (atribuir_fora _ idxs vals i Hni).
    rewrite list_lookup_insert_eq by exact Hi. simpl. f_equal.
    apply IH; [exact Hnd'| |simpl in Hlen; lia].
    intros j Hj. rewrite length_insert. apply Hlt. now right.
Qed.

(** ** The groups of [groupby] *)

(** The positions of the rows whose key is [k], in row order. *)
Definition posicoes (keys k : list string) (df : list Curva) : list nat :=
  List.filter (fun i => match df !! i with
                        | Some l => chave_eqb (chave keys l) k
                        | None => false
                        end)
              (seq 0 (List.length df)).

Lemma chave_eqb_eq (a b : list string) : chave_eqb a b = true <-> a = b.
Proof.
  unfold chave_eqb. destruct (list_eq_dec String.string_dec a b); split;
    congruence.
Qed.

Lemma chave_eqb_refl (a : list string) : chave_eqb a a = true.
Proof. now apply chave_eqb_eq. Qed.

Lemma posicoes_spec (keys k : list string) (df : list Curva) (i : nat) :
  In i (posicoes keys k df) <-> exists l, df !! i = Some l /\ chave keys l = k.
Proof.
  unfold posicoes. rewrite filter_In, in_seq. split.
  - intros [_ H]. destruct (df !! i) as [l|]; [|discriminate].
    exists l. split; [reflexivity|now apply chave_eqb_eq].
  - intros (l & Hl & Hk). split.
    + split; [lia|]. simpl. apply lookup_lt_is_Some_1. now exists l.
    + rewrite Hl. now apply chave_eqb_eq.
Qed.

Lemma posicoes_NoDup (keys k : list string) (df : list Curva) :
  List.NoDup (posicoes keys k df).
Proof. apply List.NoDup_filter, seq_NoDup. Qed.

Lemma posicoes_snoc (keys k : list string) (df : list Curva) (x : Curva) :
  posicoes keys k (df ++ [x])
  = posicoes keys k df
    ++ (if chave_eqb (chave keys x) k then [List.length df] else []).
Proof.
  unfold posicoes. rewrite length_app. simpl.
  rewrite Nat.add_1_r, seq_S, List.filter_app. simpl. f_equal.
  - apply List.filter_ext_in. intros i Hi. apply in_seq in Hi.
    now rewrite lookup_app_l by lia.
  - rewrite lookup_app_r by lia. rewrite Nat.sub_diag. reflexivity.
Qed.

(** What holds of the groups collected over the rows [df]. *)
Definition grupos_de (keys : list string) (df : list Curva)
           (gs : list (list string * list nat)) : Prop :=
  List.NoDup (map fst gs) /\
  (forall k idxs, In (k, idxs) gs -> idxs = posicoes keys k df /\ idxs <> []) /\
  (forall i l, df !! i = Some l -> In (chave keys l) (map fst gs)).

Lemma agrupar_em_chaves (gs : list (list string * list nat)) (k : list string) (i : nat) :
  map fst (agrupar_em gs k i)
  = if existsb (chave_eqb k) (map fst gs) then map fst gs else map fst gs ++ [k].
Proof.
  induction gs as [|[k' idxs] gs IH]; simpl; [reflexivity|].
  destruct (chave_eqb k' k) eqn:E.
  - apply chave_eqb_eq in E. subst. now rewrite chave_eqb_refl.
  - assert (E' : chave_eqb k k' = false).
    { destruct (chave_eqb k k') eqn:E2; [|reflexivity].
      apply chave_eqb_eq in E2. subst. now rewrite chave_eqb_refl in E. }
    rewrite E'. simpl. rewrite IH.
    now destruct (existsb (chave_eqb k) (map fst gs)).
Qed.

Lemma existsb_chave (k : list string) (ks : list (list string)) :
  existsb (chave_eqb k) ks = true <-> In k ks.
Proof.
  rewrite existsb_exists. split.
  - intros (x & Hx & E). apply chave_eqb_eq in E. now subst.
  - intros H. exists k. split; [exact H|apply chave_eqb_refl].
Qed.

Lemma agrupar_em_In (gs : list (list string * list nat)) (k : list string) (i : nat)
      (k' : list string) (idxs' : list nat) :
  List.NoDup (map fst gs) ->
  In (k', idxs') (agrupar_em gs k i) ->
  (k' <> k /\ In (k', idxs') gs) \/
  (k' = k /\ ((exists idxs, In (k, idxs) gs /\ idxs' = idxs ++ [i]) \/
              (~ In k (map fst gs) /\ idxs' = [i]))).
Proof.
  induction gs as [|[k0 idxs0] gs IH]; simpl; intros Hnd H.
  - destruct H as [H|[]]. injection H as <- <-. right. split; [reflexivity|].
    right. split; [tauto|reflexivity].
  - inversion Hnd as [|? ? Hni Hnd']; subst.
    destruct (chave_eqb k0 k) eqn:E.
    + apply chave_eqb_eq in E. subst k0. destruct H as [H|H].
      * injection H as <- <-. right. split; [reflexivity|]. left.
        exists idxs0. split; [now left|reflexivity].
      * left. split; [|now right]. intros ->. apply Hni.
        change k with (fst (k, idxs')). now apply in_map.
    + assert (Hne : k0 <> k).
      { intros ->. now rewrite chave_eqb_refl in E. }
      destruct H as [H|H].
      * injection H as <- <-. left. split; [exact Hne|now left].
      * destruct (IH Hnd' H) as [[Hk Hin]|[-> [(idxs & Hin & ->)|[Hni' ->]]]].
        -- left. split; [exact Hk|now right].
        -- right. split; [reflexivity|]. left. exists idxs. split; [now right|reflexivity].
        -- right. split; [reflexivity|]. right. split; [|reflexivity].
           intros [Hc|Hc]; [congruence|contradiction].
Qed.

Lemma combine_snoc {A B : Type} (l : list A) (l' : list B) (a : A) (b : B) :
  List.length l = List.length l' ->
  combine (l ++ [a]) (l' ++ [b]) = combine l l' ++ [(a, b)].
Proof.
  revert l'. induction l as [|x l IH]; intros [|y l'] H; simpl in *;
    try discriminate; [reflexivity|].
  f_equal. apply IH. now injection H.
Qed.

Lemma NoDup_snoc {A : Type} (l : list A) (a : A) :
  List.NoDup l -> ~ In a l -> List.NoDup (l ++ [a]).
Proof.
  induction l as [|x l IH]; simpl; intros Hnd Hni.
  - constructor; [intros []|constructor].
  - inversion Hnd as [|? ? Hx Hnd']; subst. constructor.
    + rewrite in_app_iff. intros [H|[H|[]]]; [now apply Hx|].
      apply Hni. now left.
    + apply IH; [exact Hnd'|]. intros H. apply Hni. now right.
Qed.

Lemma groupby_snoc (keys : list string) (df : list Curva) (x : Curva) :
  groupby keys (df ++ [x])
  = agrupar_em (groupby keys df) (chave keys x) (List.length df).
Proof.
  unfold groupby. rewrite length_app. simpl.
  rewrite Nat.add_1_r, seq_S. simpl.
  rewrite combine_snoc by now rewrite length_seq.
  now rewrite fold_left_app.
Qed.

Lemma groupby_grupos (keys : list string) (df : list Curva) :
  grupos_de keys df (groupby keys df).
Proof.
  induction df as [|x df IH] using rev_ind.
  - split; [constructor|]. split; [intros k idxs []|].
    intros i l H. destruct i; discriminate.
  - destruct IH as (Hnd & Hgs & Hcov). rewrite groupby_snoc.
    set (gs := groupby keys df) in *. set (k := chave keys x).
    split; [|split].
    + rewrite agrupar_em_chaves.
      destruct (existsb (chave_eqb k) (map fst gs)) eqn:E; [exact Hnd|].
      apply NoDup_snoc; [exact Hnd|].
      intros Hy. apply existsb_chave in Hy. congruence.
    + intros k' idxs' Hin. rewrite posicoes_snoc.
      destruct (agrupar_em_In gs k _ k' idxs' Hnd Hin)
        as [[Hk Hin']|[-> [(idxs & Hin' & ->)|[Hni ->]]]].
      * destruct (Hgs _ _ Hin') as [-> Hne]. split; [|exact Hne].
        fold k. replace (chave_eqb k k') with false; [now rewrite app_nil_r|].
        symmetry. destruct (chave_eqb k k') eqn:E; [|reflexivity].
        apply chave_eqb_eq in E. congruence.
      * destruct (Hgs _ _ Hin') as [-> Hne]. fold k. rewrite chave_eqb_refl.
        split; [reflexivity|]. now destruct (posicoes keys k df).
      * fold k. rewrite chave_eqb_refl. split; [|discriminate].
        replace (posicoes keys k df) with (@nil nat); [reflexivity|].
        destruct (posicoes keys k df) as [|i rest] eqn:E; [reflexivity|].
        exfalso. assert (Hi : In i (posicoes keys k df)) by (rewrite E; now left).
        apply posicoes_spec in Hi as (l & Hl & Hk). apply Hni. rewrite <- Hk.
        now apply (Hcov i l).
    + intros i l Hl. rewrite agrupar_em_chaves.
      destruct (Nat.lt_ge_cases i (List.length df)) as [Hlt|Hge].
      * rewrite lookup_app_l in Hl by exact Hlt.
        pose proof (Hcov i l Hl) as Hin.
        destruct (existsb _ _); [exact Hin|apply in_or_app; now left].
      * rewrite lookup_app_r in Hl by exact Hge.
        destruct (i - List.length df)%nat as [|m] eqn:Em; simpl in Hl; [|destruct m; discriminate].
        injection Hl as <-. fold k.
        destruct (existsb (chave_eqb k) (map fst gs)) eqn:E.
        -- now apply existsb_chave.
        -- apply in_or_app. right. now left.
Qed.

(** ** The correction, group by group *)

(** The keys of a treated table: all three key columns are present. *)
Definition chaves_curva : list string := _deduzir_chaves_curva CURVE_REQUIRED_COLS.

(** One turn of the loop over the groups. *)
Definition passo (acc : list Curva) (grupo : list string * list nat) : list Curva :=
  atribuir acc (snd grupo) (ajustar_grupo soma (valores_vp acc (snd grupo))).

(** No position belongs to two groups. *)
Fixpoint disjuntos (gs : list (list string * list nat)) : Prop :=
  match gs with
  | [] => True
  | g :: resto =>
      (forall g' i, In g' resto -> In i (snd g) -> ~ In i (snd g')) /\ disjuntos resto
  end.

Lemma ajustar_fold (df : list Curva) :
  _ajustar_vp_obra_com_3_decimais soma df
  = fold_left passo (groupby chaves_curva df) df.
Proof. destruct df; reflexivity. Qed.

Lemma passo_length (acc : list Curva) (g : list string * list nat) :
  List.length (passo acc g) = List.length acc.
Proof. apply atribuir_length. Qed.

Lemma fold_passo_fora (gs : list (list string * list nat)) (df : list Curva) (j : nat) :
  (forall g, In g gs -> ~ In j (snd g)) ->
  fold_left passo gs df !! j = df !! j.
Proof.
  revert df. induction gs as [|g gs IH]; intros df H; simpl; [reflexivity|].
  rewrite IH by (intros g' Hg'; apply H; now right).
  apply atribuir_fora. apply H. now left.
Qed.

Lemma fold_passo_valores (gs : list (list string * list nat)) (df : list Curva) :
  disjuntos gs ->
  (forall g, In g gs ->
     List.NoDup (snd g) /\ forall i, In i (snd g) -> (i < List.length df)%nat) ->
  forall g, In g gs ->
    valores_vp (fold_left passo gs df) (snd g)
    = map Some (ajustar_grupo soma (valores_vp df (snd g))).
Proof.
  revert df. induction gs as [|g0 gs IH]; intros df Hd Hok g Hg; [destruct Hg|].
  destruct Hd as [Hd0 Hd].
  change (fold_left passo (g0 :: gs) df) with (fold_left passo gs (passo df g0)).
  destruct Hg as [<-|Hg].
  - destruct (Hok g0 (or_introl eq_refl)) as [Hnd Hlt].
    rewrite (valores_vp_ext (fold_left passo gs (passo df g0)) (passo df g0)).
    + unfold passo. apply atribuir_valores; [exact Hnd|exact Hlt|].
      rewrite ajustar_grupo_length. unfold valores_vp. apply length_map.
    + intros i Hi. apply fold_passo_fora. intros g' Hg'. now apply (Hd0 g' i).
  - rewrite IH; [|exact Hd| |exact Hg].
    + f_equal. f_equal. apply valores_vp_ext. intros i Hi.
      unfold passo. apply atribuir_fora. intros Hi0. now apply (Hd0 g i).
    + intros g' Hg'. destruct (Hok g' (or_intror Hg')) as [Hnd Hlt].
      split; [exact Hnd|]. intros i Hi. rewrite passo_length. now apply Hlt.
Qed.

Lemma grupos_disjuntos (keys : list string) (df : list Curva)
      (gs : list (list string * list nat)) :
  List.NoDup (map fst gs) ->
  (forall k idxs, In (k, idxs) gs -> idxs = posicoes keys k df) ->
  disjuntos gs.
Proof.
  induction gs as [|[k idxs] gs IH]; simpl; intros Hnd Hgs; [exact I|].
  inversion Hnd as [|? ? Hni Hnd']; subst. split.
  - intros [k' idxs'] i Hg' Hi Hi'. simpl in *.
    rewrite (Hgs k idxs (or_introl eq_refl)) in Hi.
    rewrite (Hgs k' idxs' (or_intror Hg')) in Hi'.
    apply posicoes_spec in Hi as (l & Hl & Hk).
    apply posicoes_spec in Hi' as (l' & Hl' & Hk').
    apply Hni. rewrite Hl in Hl'. injection Hl' as <-.
    rewrite <- Hk, Hk'. change k' with (fst (k', idxs')). now apply in_map.
  - apply IH; [exact Hnd'|]. intros k' idxs' H. apply Hgs. now right.
Qed.

Lemma posicoes_lt (keys k : list string) (df : list Curva) (i : nat) :
  In i (posicoes keys k df) -> (i < List.length df)%nat.
Proof.
  intros H. apply posicoes_spec in H as (l & Hl & _).
  apply lookup_lt_is_Some_1. now exists l.
Qed.

(** Each group of the table receives the values that the loop body computes
    from the values the group had on entry. *)
Lemma ajustar_grupos_valores (df : list Curva) (g : list string * list nat) :
  In g (groupby chaves_curva df) ->
  valores_vp (_ajustar_vp_obra_com_3_decimais soma df) (snd g)
  = map Some (ajustar_grupo soma (valores_vp df (snd g))).
Proof.
  intros Hg. rewrite ajustar_fold.
  destruct (groupby_grupos chaves_curva df) as (Hnd & Hgs & _).
  apply fold_passo_valores; [| |exact Hg].
  - apply (grupos_disjuntos chaves_curva df); [exact Hnd|].
    intros k idxs H. now destruct (Hgs k idxs H).
  - intros [k idxs] H. destruct (Hgs k idxs H) as [-> _]. simpl. split.
    + apply posicoes_NoDup.
    + intros i. apply posicoes_lt.
Qed.

Lemma grupo_da_linha (keys : list string) (df : list Curva) (i : nat) (l : Curva) :
  df !! i = Some l ->
  In (chave keys l, posicoes keys (chave keys l) df) (groupby keys df).
Proof.
  intros Hl. destruct (groupby_grupos keys df) as (_ & Hgs & Hcov).
  pose proof (Hcov i l Hl) as Hin. apply in_map_iff in Hin as ([k idxs] & Hk & Hin).
  simpl in Hk. subst k. now destruct (Hgs _ _ Hin) as [<- _].
Qed.

(** X2.  The correction of a table is the correction of each of its curves:
    the rows that share the key of a row receive, in row order, the values
    that the loop body computes from their values. *)
Theorem correction_is_groupwise (df : list Curva) (i : nat) (l : Curva) :
  df !! i = Some l ->
  valores_vp (_ajustar_vp_obra_com_3_decimais soma df)
             (posicoes chaves_curva (chave chaves_curva l) df)
  = map Some (ajustar_grupo soma
                (valores_vp df (posicoes chaves_curva (chave chaves_curva l) df))).
Proof.
  intros Hl.
  apply (ajustar_grupos_valores df (chave chaves_curva l, _)).
  now apply (grupo_da_linha chaves_curva df i l).
Qed.

Lemma chave_com_VPObra (keys : list string) (l : Curva) (v : option float) :
  chave keys (com_VPObra l v) = chave keys l.
Proof. reflexivity. Qed.

Lemma so_vp_posicoes (keys k : list string) (a b : list Curva) :
  so_vp_difere a b -> posicoes keys k a = posicoes keys k b.
Proof.
  intros H. unfold posicoes.
  rewrite <- (Forall2_length H).
  apply List.filter_ext_in. intros i Hi. apply in_seq in Hi.
  destruct (lookup_lt_is_Some_2 a i) as [x Hx]; [lia|].
  destruct (Forall2_lookup_l _ _ _ _ _ H Hx) as (y & Hy & v & ->).
  now rewrite Hx, Hy, chave_com_VPObra.
Qed.

Lemma in_posicoes (keys : list string) (df : list Curva) (i : nat) (l : Curva) :
  df !! i = Some l -> In i (posicoes keys (chave keys l) df).
Proof. intros H. apply posicoes_spec. now exists l. Qed.

Lemma In_lookup (df : list Curva) (l : Curva) :
  In l df <-> exists i, df !! i = Some l.
Proof.
  rewrite <- list_elem_of_In. apply list_elem_of_lookup.
Qed.


End Correcao.


End CurvasFacts.

(* ====================================================================== *)
(** * Production curves: headers, stacking and order *)
(* ====================================================================== *)

Module PipelineFacts.
Import PyNum PyNumFacts Texto Numeros Fechamento FechamentoFacts Tabela Curvas CurvasFacts.
Local Open Scope string_scope.

(** ** Required columns *)



Section Tratamento.
Variable soma : list float -> float.





End Tratamento.

(** ** The order of the stacked table *)

Lemma comparar_chaves_refl (a : list string) : comparar_chaves a a = Eq.
Proof.
  induction a as [|x a IH]; simpl; [reflexivity|].
  replace (x ?= x)%string with Eq; [exact IH|].
  symmetry. now apply OrderedTypeEx.String_as_OT.cmp_eq.
Qed.

Lemma comparar_chaves_antisym (a b : list string) :
  comparar_chaves a b = CompOpp (comparar_chaves b a).
Proof.
  revert b. induction a as [|x a IH]; intros [|y b]; simpl; try reflexivity.
  pose proof (OrderedTypeEx.String_as_OT.cmp_antisym x y) as H.
  unfold OrderedTypeEx.String_as_OT.cmp in H. rewrite H.
  destruct (y ?= x)%string; simpl; auto.
Qed.

Lemma compare_string_trans (x y z : string) :
  (x ?= y)%string = Lt -> (y ?= z)%string = Lt -> (x ?= z)%string = Lt.
Proof.
  intros H1 H2.
  apply OrderedTypeEx.String_as_OT.cmp_lt.
  apply OrderedTypeEx.String_as_OT.cmp_lt in H1, H2.
  eapply OrderedTypeEx.String_as_OT.lt_trans; eassumption.
Qed.

Lemma compare_string_eq (x y : string) : (x ?= y)%string = Eq -> x = y.
Proof. apply OrderedTypeEx.String_as_OT.cmp_eq. Qed.

(** [a] comes before [b] or ties with it. *)
Definition nao_depois (a b : list string) : Prop := comparar_chaves a b <> Gt.

Lemma comparar_chaves_Lt_trans (a b c : list string) :
  comparar_chaves a b = Lt -> comparar_chaves b c <> Gt -> comparar_chaves a c = Lt.
Proof.
  revert b c. induction a as [|x a IH]; intros [|y b] [|z c] H1 H2;
    cbn [comparar_chaves] in *; try discriminate; try congruence.
  destruct (x ?= y)%string eqn:Exy; try discriminate.
  - apply compare_string_eq in Exy. subst y.
    destruct (x ?= z)%string eqn:Exz; try congruence.
    now apply (IH b c).
  - destruct (y ?= z)%string eqn:Eyz.
    + apply compare_string_eq in Eyz. subst z. now rewrite Exy.
    + now rewrite (compare_string_trans x y z Exy Eyz).
    + congruence.
Qed.

Lemma comparar_chaves_Eq_trans (a b c : list string) :
  comparar_chaves a b = Eq -> comparar_chaves a c = comparar_chaves b c.
Proof.
  revert b c. induction a as [|x a IH]; intros [|y b] [|z c] H;
    cbn [comparar_chaves] in *; try discriminate; try reflexivity.
  destruct (x ?= y)%string eqn:Exy; try discriminate.
  apply compare_string_eq in Exy. subst y.
  destruct (x ?= z)%string; try reflexivity. now apply IH.
Qed.

Lemma nao_depois_trans (a b c : list string) :
  nao_depois a b -> nao_depois b c -> nao_depois a c.
Proof.
  unfold nao_depois. intros H1 H2.
  destruct (comparar_chaves a b) eqn:E; try congruence.
  - now rewrite (comparar_chaves_Eq_trans a b c E).
  - rewrite (comparar_chaves_Lt_trans a b c E H2). discriminate.
Qed.

Lemma nao_depois_total (a b : list string) : ~ nao_depois a b -> nao_depois b a.
Proof.
  unfold nao_depois. intros H. rewrite comparar_chaves_antisym.
  destruct (comparar_chaves a b); simpl; try discriminate.
  exfalso. apply H. discriminate.
Qed.

(** The rows of the stacked table by their sort key. *)
Definition em_ordem (a b : string * Curva) : Prop :=
  nao_depois (chave ord_cols (snd a)) (chave ord_cols (snd b)).

Lemma antes_ou_igual_spec (a b : string * Curva) :
  antes_ou_igual a b = true <-> em_ordem a b.
Proof.
  unfold antes_ou_igual, em_ordem, nao_depois.
  destruct (comparar_chaves _ _); split; congruence.
Qed.

Lemma inserir_perm (x : string * Curva) (l : list (string * Curva)) :
  Permutation (inserir x l) (x :: l).
Proof.
  induction l as [|y l IH]; simpl; [reflexivity|].
  destruct (antes_ou_igual x y); [reflexivity|].
  rewrite IH. constructor.
Qed.

Lemma sort_values_perm (l : list (string * Curva)) : Permutation (sort_values l) l.
Proof.
  induction l as [|x l IH]; simpl; [reflexivity|].
  change (fold_right inserir [] l) with (sort_values l).
  rewrite inserir_perm. now constructor.
Qed.

Lemma inserir_sorted (x : string * Curva) (l : list (string * Curva)) :
  StronglySorted em_ordem l -> StronglySorted em_ordem (inserir x l).
Proof.
  induction 1 as [|y l Hs IH Hy]; simpl.
  - constructor; constructor.
  - destruct (antes_ou_igual x y) eqn:E.
    + apply antes_ou_igual_spec in E. constructor.
      * now constructor.
      * constructor; [exact E|].
        eapply Forall_impl; [|exact Hy].
        intros z Hz. exact (nao_depois_trans _ _ _ E Hz).
    + constructor; [exact IH|].
      assert (Hyx : em_ordem y x).
      { apply nao_depois_total. intros H. apply antes_ou_igual_spec in H. congruence. }
      rewrite Forall_forall. intros z Hz.
      apply (Permutation_in z (inserir_perm x l)) in Hz.
      destruct Hz as [<-|Hz]; [exact Hyx|].
      rewrite Forall_forall in Hy. now apply Hy.
Qed.

Lemma sort_values_sorted (l : list (string * Curva)) :
  StronglySorted em_ordem (sort_values l).
Proof.
  induction l as [|x l IH]; simpl; [constructor|].
  now apply inserir_sorted.
Qed.

(** Rows with the same key keep the order they were stacked in. *)
Lemma inserir_filter (x : string * Curva) (l : list (string * Curva)) (k : list string) :
  List.filter (fun r => chave_eqb (chave ord_cols (snd r)) k) (inserir x l)
  = List.filter (fun r => chave_eqb (chave ord_cols (snd r)) k) (x :: l).
Proof.
  induction l as [|y l IH]; [reflexivity|].
  cbn [inserir]. destruct (antes_ou_igual x y) eqn:E; [reflexivity|].
  cbn [List.filter] in *. rewrite IH.
  destruct (chave_eqb (chave ord_cols (snd x)) k) eqn:Ex; [|reflexivity].
  destruct (chave_eqb (chave ord_cols (snd y)) k) eqn:Ey; [|reflexivity].
  apply chave_eqb_eq in Ex, Ey. exfalso.
  unfold antes_ou_igual in E. rewrite Ex, Ey, comparar_chaves_refl in E. discriminate.
Qed.

Lemma sort_values_stable (l : list (string * Curva)) (k : list string) :
  List.filter (fun r => chave_eqb (chave ord_cols (snd r)) k) (sort_values l)
  = List.filter (fun r => chave_eqb (chave ord_cols (snd r)) k) l.
Proof.
  induction l as [|x l IH]; [reflexivity|].
  cbn [sort_values fold_right].
  change (fold_right inserir [] l) with (sort_values l).
  rewrite inserir_filter. cbn [List.filter]. now rewrite IH.
Qed.

Lemma comparar_chaves_eq (a b : list string) : comparar_chaves a b = Eq -> a = b.
Proof.
  revert b. induction a as [|x a IH]; intros [|y b] H; cbn [comparar_chaves] in H;
    try discriminate; [reflexivity|].
  destruct (x ?= y)%string eqn:E; try discriminate.
  apply compare_string_eq in E. subst y. f_equal. now apply IH.
Qed.

Lemma em_ordem_antisym (x y : string * Curva) :
  em_ordem x y -> em_ordem y x -> chave ord_cols (snd x) = chave ord_cols (snd y).
Proof.
  unfold em_ordem, nao_depois. intros H1 H2. apply comparar_chaves_eq.
  rewrite comparar_chaves_antisym in H2.
  destruct (comparar_chaves (chave ord_cols (snd x)) (chave ord_cols (snd y)));
    cbn in H2; congruence.
Qed.

(** The rows of [l] whose sort key is [k], in their order. *)
Definition com_chave (k : list string) (l : list (string * Curva)) : list (string * Curva) :=
  List.filter (fun r => chave_eqb (chave ord_cols (snd r)) k) l.

Lemma primeiro_em_ordem (x : string * Curva) (l : list (string * Curva)) (z : string * Curva) :
  StronglySorted em_ordem (x :: l) -> In z (x :: l) -> em_ordem x z.
Proof.
  intros Hs [<-|Hz].
  - unfold em_ordem, nao_depois. now rewrite comparar_chaves_refl.
  - apply StronglySorted_inv in Hs as [_ Hx]. rewrite Forall_forall in Hx. now apply Hx.
Qed.

Lemma com_chave_primeiro (x : string * Curva) (l : list (string * Curva)) :
  com_chave (chave ord_cols (snd x)) (x :: l)
  = x :: com_chave (chave ord_cols (snd x)) l.
Proof. unfold com_chave. cbn [List.filter]. now rewrite chave_eqb_refl. Qed.

(** A table in the order of its keys is determined by the rows of each key
    in their order. *)
Lemma ordenada_unica (a : list (string * Curva)) :
  forall b,
    StronglySorted em_ordem a -> StronglySorted em_ordem b ->
    (forall k, com_chave k a = com_chave k b) -> a = b.
Proof.
  induction a as [|x a IH]; intros [|y b] Ha Hb H.
  - reflexivity.
  - specialize (H (chave ord_cols (snd y))). rewrite com_chave_primeiro in H. discriminate.
  - specialize (H (chave ord_cols (snd x))). rewrite com_chave_primeiro in H. discriminate.
  - assert (Hxb : In x (y :: b)).
    { pose proof (H (chave ord_cols (snd x))) as Hk. rewrite com_chave_primeiro in Hk.
      assert (Hin : In x (com_chave (chave ord_cols (snd x)) (y :: b)))
        by (rewrite <- Hk; now left).
      unfold com_chave in Hin. now apply filter_In in Hin as [Hin _]. }
    assert (Hya : In y (x :: a)).
    { pose proof (H (chave ord_cols (snd y))) as Hk. rewrite (com_chave_primeiro y) in Hk.
      assert (Hin : In y (com_chave (chave ord_cols (snd y)) (x :: a)))
        by (rewrite Hk; now left).
      unfold com_chave in Hin. now apply filter_In in Hin as [Hin _]. }
    pose proof (em_ordem_antisym x y (primeiro_em_ordem x a y Ha Hya)
                                 (primeiro_em_ordem y b x Hb Hxb)) as Hk.
    pose proof (H (chave ord_cols (snd x))) as Hx.
    rewrite com_chave_primeiro in Hx. rewrite Hk in Hx at 2.
    rewrite com_chave_primeiro in Hx. injection Hx as Hxy Hresto. subst y.
    f_equal. apply IH.
    + now apply StronglySorted_inv in Ha as [Ha _].
    + now apply StronglySorted_inv in Hb as [Hb _].
    + intros k. pose proof (H k) as Hkk. unfold com_chave in *. cbn [List.filter] in Hkk.
      destruct (chave_eqb (chave ord_cols (snd x)) k) eqn:E.
      * now injection Hkk.
      * exact Hkk.
Qed.

(** The sorted table depends only on the rows of each key in their order. *)
Lemma sort_values_determinado (l l' : list (string * Curva)) :
  (forall k, com_chave k l = com_chave k l') -> sort_values l = sort_values l'.
Proof.
  intros H. apply ordenada_unica; try apply sort_values_sorted.
  intros k. unfold com_chave. rewrite !sort_values_stable. exact (H k).
Qed.

Section Empilhamento.
Variable soma : list float -> float.

Lemma empilhar_sorted (dfs : list (string * DataFrame))
      (r : list (string * Curva) * list string * list string) :
  empilhar_curvas soma dfs = Ok r -> StronglySorted em_ordem (fst (fst r)).
Proof.
  unfold empilhar_curvas.
  destruct (empilhar_de soma ([], [], []) dfs) as [[[emp ok_list] warn_list]|e];
    [|discriminate].
  destruct emp as [|x emp]; intros E; injection E as <-; cbn [fst];
    [constructor|apply sort_values_sorted].
Qed.

End Empilhamento.

(** ** Reading the workbooks *)

Lemma ler_curvas_de_falha (files : list (Upload DataFrame)) :
  forall dfs up e,
    In up files -> conteudo up = Excecao e ->
    exists e', ler_curvas_de dfs files = Excecao e'.
Proof.
  induction files as [|f files IH]; intros dfs up e Hin He; [destruct Hin|].
  cbn [ler_curvas_de]. destruct (conteudo f) as [xls|e0] eqn:Ef.
  - destruct Hin as [->|Hin]; [congruence|]. now apply (IH _ up e).
  - now exists e0.
Qed.

Lemma ler_curvas_de_ok (files : list (Upload DataFrame)) :
  forall dfs,
    (forall up, In up files -> exists xls, conteudo up = Ok xls) ->
    exists r, ler_curvas_de dfs files = Ok r.
Proof.
  induction files as [|f files IH]; intros dfs H; [now exists dfs|].
  cbn [ler_curvas_de]. destruct (H f (or_introl eq_refl)) as [xls ->].
  apply IH. intros up Hup. apply H. now right.
Qed.

Lemma firstn_app_exato {A : Type} (n : nat) (l extra : list A) :
  List.length l = n -> firstn n (l ++ extra) = l.
Proof.
  intros <-. rewrite firstn_app, Nat.sub_diag, firstn_all. simpl. apply app_nil_r.
Qed.

End PipelineFacts.

(* ====================================================================== *)
(** * Reading many workbooks: isolation, truncation, order and cache *)
(* ====================================================================== *)

Module LeituraFacts.
Import PyNum Texto Numeros Tabela Curvas PipelineFacts.
Local Open Scope string_scope.

(** ** Dictionaries in insertion order *)

Lemma dict_get_set_eq {V : Type} (d : list (string * V)) (k : string) (v : V) :
  dict_get (dict_set d k v) k = Some v.
Proof.
  induction d as [|[k' v'] d IH]; simpl.
  - now rewrite String.eqb_refl.
  - destruct (String.eqb k' k) eqn:E; simpl.
    + now rewrite String.eqb_refl.
    + now rewrite E.
Qed.

Lemma dict_get_set_ne {V : Type} (d : list (string * V)) (k k' : string) (v : V) :
  k <> k' -> dict_get (dict_set d k v) k' = dict_get d k'.
Proof.
  intros Hne. induction d as [|[k0 v0] d IH]; simpl.
  - destruct (String.eqb_spec k k'); [congruence|reflexivity].
  - destruct (String.eqb_spec k0 k) as [->|Hk]; simpl.
    + destruct (String.eqb_spec k k'); [congruence|reflexivity].
    + destruct (String.eqb k0 k'); [reflexivity|exact IH].
Qed.

(** ** The wall report: a workbook that cannot be read is skipped *)

Section Parede.
Context {T : Type}.

Definition ilegivel (up : Upload T) : bool :=
  match conteudo up with Excecao _ => true | Ok _ => false end.

Definition aviso_de (up : Upload T) : string :=
  match conteudo up with
  | Excecao e => "Falha ao ler '" +:+ name up +:+ "': " +:+ e
  | Ok _ => ""
  end.

Lemma parede_avisos (files : list (Upload T))
      (acc : list (string * list (string * T)) * list string) :
  snd (fold_left Parede.ler_passo files acc)
  = (snd acc ++ map aviso_de (List.filter ilegivel files))%list.
Proof.
  revert acc. induction files as [|f files IH]; intros acc.
  - cbn [fold_left List.filter map]. now rewrite app_nil_r.
  - cbn [fold_left List.filter]. rewrite IH. unfold Parede.ler_passo.
    destruct (conteudo f) as [xls|msg] eqn:E.
    + assert (Hi : ilegivel f = false) by (unfold ilegivel; now rewrite E).
      rewrite Hi. reflexivity.
    + assert (Hi : ilegivel f = true) by (unfold ilegivel; now rewrite E).
      assert (Ha : aviso_de f = "Falha ao ler '" +:+ name f +:+ "': " +:+ msg)
        by (unfold aviso_de; now rewrite E).
      rewrite Hi. cbn [map fst snd]. rewrite Ha, <- app_assoc. reflexivity.
Qed.

Lemma parede_fora (files : list (Upload T))
      (acc : list (string * list (string * T)) * list string) (k : string) :
  (forall up, In up files -> ilegivel up = false -> name up <> k) ->
  dict_get (fst (fold_left Parede.ler_passo files acc)) k = dict_get (fst acc) k.
Proof.
  revert acc. induction files as [|f files IH]; intros acc H; simpl; [reflexivity|].
  rewrite IH by (intros up Hup; apply H; now right).
  unfold Parede.ler_passo. pose proof (H f (or_introl eq_refl)) as Hf.
  unfold ilegivel in Hf. destruct (conteudo f); simpl; [|reflexivity].
  apply dict_get_set_ne. now apply Hf.
Qed.

(** Every readable workbook is in the result under its name; when no other
    readable workbook of the batch carries that name, with its own
    sheets. *)
Lemma parede_presente (files : list (Upload T))
      (acc : list (string * list (string * T)) * list string)
      (up : Upload T) (xls : list (string * T)) :
  In up files -> conteudo up = Ok xls ->
  exists x, dict_get (fst (fold_left Parede.ler_passo files acc)) (name up) = Some x.
Proof.
  revert acc up xls.
  induction files as [|f files IH]; intros acc up xls Hin Hc; [destruct Hin|].
  cbn [fold_left].
  destruct (in_dec (fun a b => string_dec a b) (name up)
                   (map name (List.filter (fun g => negb (ilegivel g)) files)))
    as [Hl|Hl].
  - apply in_map_iff in Hl as (g & Hg & Hgin). apply filter_In in Hgin as [Hgin Hleg].
    unfold ilegivel in Hleg. destruct (conteudo g) as [xg|] eqn:Eg; [|discriminate].
    rewrite <- Hg. exact (IH _ g xg Hgin Eg).
  - rewrite parede_fora.
    + destruct Hin as [->|Hin].
      * unfold Parede.ler_passo. rewrite Hc. cbn [fst]. rewrite dict_get_set_eq. eauto.
      * exfalso. apply Hl. apply in_map_iff. exists up. split; [reflexivity|].
        apply filter_In. split; [exact Hin|]. unfold ilegivel. now rewrite Hc.
    + intros g Hg Hleg E. apply Hl. apply in_map_iff. exists g. split; [exact E|].
      apply filter_In. split; [exact Hg|]. now rewrite Hleg.
Qed.

End Parede.

(** ** The PP report: cache and truncation *)

Section PP.
Variable to_parquet : DataFrame -> PP.escrita.

Lemma cache_hit (disco : PP.cache) (file_name : string) (df : DataFrame)
      (file_bytes : resultado (list (string * DataFrame))) :
  disco !! file_name = Some (PP.Legivel df) ->
  PP._read_excel_with_cache to_parquet disco file_bytes file_name
  = (Ok [(file_name +:+ "::Planilha1", df)], disco).
Proof.
  intros H. unfold PP._read_excel_with_cache. now rewrite H.
Qed.

Lemma cache_miss (disco : PP.cache) (file_name sheet : string) (df : DataFrame)
      (resto : list (string * DataFrame)) :
  disco !! file_name = None \/ disco !! file_name = Some PP.Corrompida ->
  to_parquet (PP.usecols df) = PP.Gravou ->
  PP._read_excel_with_cache to_parquet disco (Ok ((sheet, df) :: resto)) file_name
  = (Ok [(file_name +:+ "::" +:+ sheet, PP.usecols df)],
     <[file_name := PP.Legivel (PP.usecols df)]> disco).
Proof.
  intros H Hw. unfold PP._read_excel_with_cache. cbn [map fst snd]. rewrite Hw.
  destruct H as [-> | ->]; reflexivity.
Qed.

End PP.

End LeituraFacts.

(* ====================================================================== *)
(** * Milestones: durations and completion order *)
(* ====================================================================== *)

Module MarcoFacts.
Import PyNum Texto Tabela Marco.
Local Open Scope string_scope.

(** ** Results that agree up to a relation on their values *)

Definition mesma_sorte {A : Type} (R : A -> A -> Prop) (x y : resultado A) : Prop :=
  match x, y with
  | Ok a, Ok b => R a b
  | Excecao _, Excecao _ => True
  | _, _ => False
  end.

Lemma todos_ok_perm {A : Type} (l l' : list (resultado A)) :
  Permutation l l' -> mesma_sorte (@Permutation A) (todos_ok l) (todos_ok l').
Proof.
  induction 1 as [|x l l' _ IH|x y l|l l' l'' _ IH1 _ IH2].
  - constructor.
  - cbn [todos_ok]. destruct x as [a|e]; [|exact I].
    destruct (todos_ok l), (todos_ok l'); cbn in *; try exact I; try contradiction.
    now constructor.
  - cbn [todos_ok]. destruct x as [a|e], y as [b|e']; try exact I.
    destruct (todos_ok l); cbn; [constructor|exact I].
  - destruct (todos_ok l), (todos_ok l'), (todos_ok l''); cbn in *;
      try exact I; try contradiction.
    now transitivity a0.
Qed.

Lemma concat_perm {A : Type} (l l' : list (list A)) :
  Permutation l l' -> Permutation (List.concat l) (List.concat l').
Proof.
  induction 1 as [|x l l' _ IH|x y l|l l' l'' _ IH1 _ IH2]; cbn [List.concat].
  - constructor.
  - now apply Permutation_app_head.
  - rewrite !app_assoc. apply Permutation_app_tail, Permutation_app_comm.
  - now transitivity (List.concat l').
Qed.

(** ** Frames with the same labels *)

Definition uniformes (fs : list Folha) : Prop :=
  forall f g, In f fs -> In g fs -> colunas f = colunas g.

Lemma mesmas_colunas_spec (f : Folha) (fs : list Folha) :
  forallb (fun g => if list_eq_dec string_dec (colunas g) (colunas f)
                    then true else false) fs = true
  <-> forall g, In g fs -> colunas g = colunas f.
Proof.
  rewrite forallb_forall. split; intros H g Hg; specialize (H g Hg).
  - now destruct (list_eq_dec string_dec (colunas g) (colunas f)).
  - destruct (list_eq_dec string_dec (colunas g) (colunas f)); congruence.
Qed.

Lemma concat_uniformes (f : Folha) (fs : list Folha) :
  uniformes (f :: fs) ->
  concat (f :: fs)
  = Ok {| colunas := colunas f; registros := flat_map registros (f :: fs) |}.
Proof.
  intros H. unfold concat.
  replace (forallb _ (f :: fs)) with true; [reflexivity|].
  symmetry. apply mesmas_colunas_spec. intros g Hg. apply H; [exact Hg|now left].
Qed.

Lemma concat_nao_uniformes (f : Folha) (fs : list Folha) :
  ~ uniformes (f :: fs) -> exists e, concat (f :: fs) = Excecao e.
Proof.
  intros H. unfold concat.
  destruct (forallb _ (f :: fs)) eqn:E; [|eauto].
  exfalso. apply H. intros g h Hg Hh.
  rewrite mesmas_colunas_spec in E. now rewrite (E g Hg), (E h Hh).
Qed.

Lemma uniformes_dec (f : Folha) (fs : list Folha) :
  uniformes (f :: fs) \/ ~ uniformes (f :: fs).
Proof.
  destruct (forallb (fun g => if list_eq_dec string_dec (colunas g) (colunas f)
                              then true else false) (f :: fs)) eqn:E.
  - left. intros g h Hg Hh. rewrite mesmas_colunas_spec in E.
    now rewrite (E g Hg), (E h Hh).
  - right. intros Hu.
    assert (E' : forallb (fun g => if list_eq_dec string_dec (colunas g) (colunas f)
                                   then true else false) (f :: fs) = true).
    { apply mesmas_colunas_spec. intros g Hg. apply Hu; [exact Hg|now left]. }
    congruence.
Qed.

Definition mesmas_linhas (a b : Folha) : Prop :=
  colunas a = colunas b /\ Permutation (registros a) (registros b).

Lemma concat_frames_perm (fs fs' : list Folha) :
  Permutation fs fs' -> mesma_sorte mesmas_linhas (concat fs) (concat fs').
Proof.
  intros Hp. destruct fs as [|f fs].
  - apply Permutation_nil in Hp. subst. cbn. split; reflexivity.
  - destruct fs' as [|f' fs'];
      [apply Permutation_sym, Permutation_nil in Hp; discriminate|].
    destruct (uniformes_dec f fs) as [Hu|Hu].
    + assert (Hu' : uniformes (f' :: fs')).
      { intros g h Hg Hh. apply Hu; eapply Permutation_in;
          try (apply Permutation_sym; exact Hp); assumption. }
      rewrite (concat_uniformes f fs Hu), (concat_uniformes f' fs' Hu').
      unfold mesma_sorte, mesmas_linhas. cbn [colunas registros]. split.
      * apply Hu; [now left|].
        eapply Permutation_in; [apply Permutation_sym; exact Hp|now left].
      * apply Permutation_flat_map. exact Hp.
    + assert (Hu' : ~ uniformes (f' :: fs')).
      { intros Hu'. apply Hu. intros g h Hg Hh.
        apply Hu'; eapply Permutation_in; try exact Hp; assumption. }
      destruct (concat_nao_uniformes f fs Hu) as [e ->].
      destruct (concat_nao_uniformes f' fs' Hu') as [e' ->]. exact I.
Qed.

(** ** Completion order *)

Section Ordem.
Variable to_datetime : list celula -> list (option Data).

Lemma processar_perm (files : list (Upload Folha)) (o1 o2 : list nat) :
  Permutation o1 o2 ->
  mesma_sorte mesmas_linhas (processar_arquivos to_datetime o1 files)
              (processar_arquivos to_datetime o2 files).
Proof.
  intros Hp. unfold processar_arquivos. cbn zeta.
  set (g := fun i => match firstn MAX_FILES files !! i with
                     | Some f => _process_excel_file to_datetime f
                     | None => Ok []
                     end).
  pose proof (todos_ok_perm (map g o1) (map g o2) (Permutation_map g Hp)) as H.
  destruct (todos_ok (map g o1)) as [r1|e1], (todos_ok (map g o2)) as [r2|e2];
    cbn in H; try contradiction; [|exact I].
  apply concat_frames_perm, concat_perm, H.
Qed.

Lemma processar_trunca (ordem : list nat) (files extra : list (Upload Folha)) :
  List.length files = MAX_FILES ->
  processar_arquivos to_datetime ordem (files ++ extra)
  = processar_arquivos to_datetime ordem files.
Proof.
  intros H. unfold processar_arquivos. cbn zeta.
  rewrite firstn_app, H, Nat.sub_diag. cbn [firstn].
  now rewrite app_nil_r, <- H, firstn_all.
Qed.

End Ordem.

(** ** Earliest and latest date *)

Definition antes_prop (a b : Data) : Prop :=
  (year a < year b \/
   (year a = year b /\ (month a < month b \/ (month a = month b /\ day a < day b))))%Z.

Lemma antes_spec (a b : Data) : antes a b = true <-> antes_prop a b.
Proof.
  unfold antes, antes_prop.
  rewrite !orb_true_iff, !andb_true_iff, !orb_true_iff, !andb_true_iff,
    !Z.ltb_lt, !Z.eqb_eq.
  tauto.
Qed.

Lemma antes_false (a b : Data) : antes a b = false <-> ~ antes_prop a b.
Proof.
  rewrite <- antes_spec. destruct (antes a b); split; congruence.
Qed.

Definition passo_min (acc d : option Data) : option Data :=
  match acc, d with
  | Some a, Some b => Some (if antes b a then b else a)
  | None, _ => d
  | _, None => acc
  end.

Lemma minimo_de (ds : list (option Data)) (acc : option Data) :
  match fold_left passo_min ds acc with
  | None => acc = None /\ forall d, In d ds -> d = None
  | Some m =>
      (acc = Some m \/ In (Some m) ds) /\
      (forall a, acc = Some a -> antes a m = false) /\
      (forall d, In (Some d) ds -> antes d m = false)
  end.
Proof.
  revert acc. induction ds as [|d ds IH]; intros acc; cbn [fold_left].
  - destruct acc as [a|].
    + split; [now left|]. split.
      * intros a' [= <-]. apply antes_false. unfold antes_prop. lia.
      * intros d [].
    + split; [reflexivity|intros d []].
  - specialize (IH (passo_min acc d)).
    destruct (fold_left passo_min ds (passo_min acc d)) as [m|].
    + destruct IH as (Hin & Hacc & Hds).
      assert (Hd : forall x, d = Some x -> antes x m = false).
      { intros x ->. destruct acc as [a|]; cbn in Hacc.
        - destruct (antes x a) eqn:E.
          + now apply Hacc.
          + specialize (Hacc a eq_refl). apply antes_false in E, Hacc.
            apply antes_false. unfold antes_prop in *. lia.
        - now apply Hacc. }
      assert (Ha : forall a, acc = Some a -> antes a m = false).
      { intros a ->. destruct d as [x|]; cbn in Hacc.
        - destruct (antes x a) eqn:E.
          + specialize (Hacc x eq_refl). apply antes_spec in E. apply antes_false in Hacc.
            apply antes_false. unfold antes_prop in *. lia.
          + now apply Hacc.
        - now apply Hacc. }
      split; [|split; [exact Ha|]].
      * destruct Hin as [Hin|Hin]; [|right; now right].
        destruct acc as [a|], d as [x|]; cbn in Hin.
        -- destruct (antes x a); injection Hin as <-; [right; now left|now left].
        -- now left.
        -- right. left. exact Hin.
        -- discriminate.
      * intros x [->|Hx]; [now apply Hd|now apply Hds].
    + destruct IH as (Hacc & Hds).
      destruct acc as [a|], d as [x|]; cbn in Hacc; try discriminate.
      split; [reflexivity|]. intros y [<-|Hy]; [reflexivity|now apply Hds].
Qed.

(** [minimo] is a date of the list that none of its dates precedes, and is
    missing only when every date is. *)
Lemma minimo_spec (ds : list (option Data)) :
  match minimo ds with
  | None => forall d, In d ds -> d = None
  | Some m => In (Some m) ds /\ forall d, In (Some d) ds -> antes d m = false
  end.
Proof.
  pose proof (minimo_de ds None) as H. unfold minimo. fold passo_min.
  destruct (fold_left passo_min ds None) as [m|].
  - destruct H as ([H|H] & _ & Hds); [discriminate|]. now split.
  - now destruct H.
Qed.

Definition passo_max (acc d : option Data) : option Data :=
  match acc, d with
  | Some a, Some b => Some (if antes a b then b else a)
  | None, _ => d
  | _, None => acc
  end.

Lemma maximo_de (ds : list (option Data)) (acc : option Data) :
  match fold_left passo_max ds acc with
  | None => acc = None /\ forall d, In d ds -> d = None
  | Some m =>
      (acc = Some m \/ In (Some m) ds) /\
      (forall a, acc = Some a -> antes m a = false) /\
      (forall d, In (Some d) ds -> antes m d = false)
  end.
Proof.
  revert acc. induction ds as [|d ds IH]; intros acc; cbn [fold_left].
  - destruct acc as [a|].
    + split; [now left|]. split.
      * intros a' [= <-]. apply antes_false. unfold antes_prop. lia.
      * intros d [].
    + split; [reflexivity|intros d []].
  - specialize (IH (passo_max acc d)).
    destruct (fold_left passo_max ds (passo_max acc d)) as [m|].
    + destruct IH as (Hin & Hacc & Hds).
      assert (Hd : forall x, d = Some x -> antes m x = false).
      { intros x ->. destruct acc as [a|]; cbn in Hacc.
        - destruct (antes a x) eqn:E.
          + now apply Hacc.
          + specialize (Hacc a eq_refl). apply antes_false in E, Hacc.
            apply antes_false. unfold antes_prop in *. lia.
        - now apply Hacc. }
      assert (Ha : forall a, acc = Some a -> antes m a = false).
      { intros a ->. destruct d as [x|]; cbn in Hacc.
        - destruct (antes a x) eqn:E.
          + specialize (Hacc x eq_refl). apply antes_spec in E. apply antes_false in Hacc.
            apply antes_false. unfold antes_prop in *. lia.
          + now apply Hacc.
        - now apply Hacc. }
      split; [|split; [exact Ha|]].
      * destruct Hin as [Hin|Hin]; [|right; now right].
        destruct acc as [a|], d as [x|]; cbn in Hin.
        -- destruct (antes a x); injection Hin as <-; [right; now left|now left].
        -- now left.
        -- right. left. exact Hin.
        -- discriminate.
      * intros x [->|Hx]; [now apply Hd|now apply Hds].
    + destruct IH as (Hacc & Hds).
      destruct acc as [a|], d as [x|]; cbn in Hacc; try discriminate.
      split; [reflexivity|]. intros y [<-|Hy]; [reflexivity|now apply Hds].
Qed.

Lemma maximo_spec (ds : list (option Data)) :
  match maximo ds with
  | None => forall d, In d ds -> d = None
  | Some m => In (Some m) ds /\ forall d, In (Some d) ds -> antes m d = false
  end.
Proof.
  pose proof (maximo_de ds None) as H. unfold maximo. fold passo_max.
  destruct (fold_left passo_max ds None) as [m|].
  - destruct H as ([H|H] & _ & Hds); [discriminate|]. now split.
  - now destruct H.
Qed.

(** ** The duration of a work *)

Lemma ocorrencias_pertence (c : string) (cols : list string) :
  (0 < ocorrencias c cols)%nat -> pertence c cols = true.
Proof.
  unfold ocorrencias, pertence. induction cols as [|x cols IH]; cbn; [lia|].
  destruct (String.eqb c x); cbn; [reflexivity|exact IH].
Qed.

Lemma vazia_false (df : Folha) (c : string) :
  pertence c (colunas df) = true -> registros df <> [] -> vazia df = false.
Proof.
  unfold vazia. destruct (colunas df); [discriminate|].
  destruct (registros df); [congruence|reflexivity].
Qed.

Lemma coluna_nao_vazia (df : Folha) (c : string) (x : celula) :
  In x (coluna df c) -> registros df <> [].
Proof.
  unfold coluna. destruct (registros df); [intros []|discriminate].
Qed.

Section Duracao.
Variable to_datetime : list celula -> list (option Data).

(** The dates of a column that holds only dates and blanks. *)
Definition datas (col : list celula) : list (option Data) :=
  map (fun c => match c with CData d => Some d | _ => None end) col.

Lemma convert_so_datas (col : list celula) :
  so_datas col = true -> _convert_excel_dates to_datetime col = datas col.
Proof.
  intros H. unfold _convert_excel_dates. rewrite H. now destruct col.
Qed.

(** Rows of two different works: whatever else the sheet holds, the call
    raises. *)
Lemma calc_duas_obras (df : Folha) (s t : string) :
  pertence "Obra" (colunas df) = true ->
  In (CTexto s) (coluna df "Obra") -> In (CTexto t) (coluna df "Obra") -> s <> t ->
  exists e, _calculate_work_duration to_datetime df = Excecao e.
Proof.
  intros Hp Hs Ht Hne. unfold _calculate_work_duration.
  rewrite (vazia_false df "Obra" Hp (coluna_nao_vazia df "Obra" _ Hs)), Hp.
  cbn [orb negb].
  destruct (1 <? ocorrencias Inicio (colunas df))%nat; [eauto|].
  destruct (1 <? ocorrencias Termino (colunas df))%nat; [eauto|].
  destruct (1 <? ocorrencias "Obra" (colunas df))%nat; [eauto|].
  cbn zeta.
  destruct (List.filter (fun c => negb (falta c)) (coluna df "Obra")) as [|obra resto] eqn:Ef.
  { exfalso. assert (H : In (CTexto s) (List.filter (fun c => negb (falta c)) (coluna df "Obra")))
      by (apply filter_In; now split).
    rewrite Ef in H. destruct H. }
  destruct (negb (pertence "Nome" (colunas df))); [eauto|].
  destruct (1 <? ocorrencias "Nome" (colunas df))%nat; [eauto|].
  destruct (negb (dtype_object (coluna df "Nome"))); [eauto|].
  destruct (forallb (celula_eqb obra) (coluna df "Obra")) eqn:Ea; [|eauto].
  exfalso. rewrite forallb_forall in Ea.
  pose proof (Ea _ Hs) as E1. pose proof (Ea _ Ht) as E2.
  destruct obra; cbn in E1, E2; try discriminate.
  apply String.eqb_eq in E1, E2. congruence.
Qed.

(** Rows without a work beside rows of a work: the call raises too. *)
Lemma calc_obra_em_falta (df : Folha) (s : string) :
  pertence "Obra" (colunas df) = true ->
  In (CTexto s) (coluna df "Obra") -> In CVazia (coluna df "Obra") ->
  exists e, _calculate_work_duration to_datetime df = Excecao e.
Proof.
  intros Hp Hs Hv. unfold _calculate_work_duration.
  rewrite (vazia_false df "Obra" Hp (coluna_nao_vazia df "Obra" _ Hs)), Hp.
  cbn [orb negb].
  destruct (1 <? ocorrencias Inicio (colunas df))%nat; [eauto|].
  destruct (1 <? ocorrencias Termino (colunas df))%nat; [eauto|].
  destruct (1 <? ocorrencias "Obra" (colunas df))%nat; [eauto|].
  cbn zeta.
  destruct (List.filter (fun c => negb (falta c)) (coluna df "Obra")) as [|obra resto] eqn:Ef.
  { exfalso. assert (H : In (CTexto s) (List.filter (fun c => negb (falta c)) (coluna df "Obra")))
      by (apply filter_In; now split).
    rewrite Ef in H. destruct H. }
  destruct (negb (pertence "Nome" (colunas df))); [eauto|].
  destruct (1 <? ocorrencias "Nome" (colunas df))%nat; [eauto|].
  destruct (negb (dtype_object (coluna df "Nome"))); [eauto|].
  destruct (forallb (celula_eqb obra) (coluna df "Obra")) eqn:Ea; [|eauto].
  exfalso. rewrite forallb_forall in Ea.
  pose proof (Ea _ Hv) as E1.
  assert (Hin : In obra (List.filter (fun c => negb (falta c)) (coluna df "Obra")))
    by (rewrite Ef; now left).
  apply filter_In in Hin as [_ Hf].
  destruct obra; cbn in E1, Hf; discriminate.
Qed.

(** One work on every row: the call goes through and writes the same
    value on every row. *)
Lemma calc_uma_obra (df : Folha) (s : string) :
  registros df <> [] ->
  ocorrencias "Obra" (colunas df) = 1%nat ->
  ocorrencias "Nome" (colunas df) = 1%nat ->
  (ocorrencias Inicio (colunas df) <= 1)%nat ->
  (ocorrencias Termino (colunas df) <= 1)%nat ->
  Forall (fun c => c = CTexto s) (coluna df "Obra") ->
  dtype_object (coluna df "Nome") = true ->
  _calculate_work_duration to_datetime df
  = Ok (com_coluna df Duracao_obra
          (map (fun _ =>
                  meses (minimo (onde (_convert_excel_dates
                                         to_datetime (coluna_ou_vazia df Inicio))
                                      (map (str_contains Fundacao) (coluna df "Nome"))))
                        (maximo (onde (_convert_excel_dates
                                         to_datetime (coluna_ou_vazia df Termino))
                                      (map (str_contains Fim_Fisico) (coluna df "Nome")))))
               (registros df))).
Proof.
  intros Hr Ho Hn Hi Ht Hs Hobj.
  assert (Hpo : pertence "Obra" (colunas df) = true)
    by (apply ocorrencias_pertence; lia).
  assert (Hpn : pertence "Nome" (colunas df) = true)
    by (apply ocorrencias_pertence; lia).
  unfold _calculate_work_duration.
  rewrite (vazia_false df "Obra" Hpo Hr), Hpo. cbn [orb negb].
  replace (1 <? ocorrencias Inicio (colunas df))%nat with false
    by (symmetry; apply Nat.ltb_ge; exact Hi).
  replace (1 <? ocorrencias Termino (colunas df))%nat with false
    by (symmetry; apply Nat.ltb_ge; exact Ht).
  rewrite Ho, Hn, Hpn, Hobj. cbn [Nat.ltb Nat.leb negb]. cbn zeta.
  assert (Hne : coluna df "Obra" <> []).
  { unfold coluna. destruct (registros df); [congruence|discriminate]. }
  destruct (coluna df "Obra") as [|c obras] eqn:Ec; [congruence|].
  inversion Hs as [|? ? Hc Hrest]; subst. cbn [List.filter falta negb].
  replace (forallb (celula_eqb (CTexto s)) (CTexto s :: obras)) with true; [reflexivity|].
  symmetry. apply forallb_forall. intros x Hx.
  rewrite Forall_forall in Hs. rewrite (Hs x Hx). cbn. apply String.eqb_refl.
Qed.

End Duracao.

End MarcoFacts.

(* ====================================================================== *)
(** * Names: sheet names, column labels and grouping keys *)
(* ====================================================================== *)

Module NomesFacts.
Import Texto Tabela.
Local Open Scope string_scope.

(** ** Slices *)

Lemma length_substring0 (n : nat) (s : string) :
  (String.length (substring 0 n s) <= n)%nat.
Proof.
  revert s. induction n as [|n IH]; intros [|c s]; cbn; try lia.
  specialize (IH s). lia.
Qed.

Lemma substring0_tudo (n : nat) (s : string) :
  (String.length s <= n)%nat -> substring 0 n s = s.
Proof.
  revert s. induction n as [|n IH]; intros [|c s] H; cbn in *; try reflexivity; try lia.
  f_equal. apply IH. lia.
Qed.

Lemma todos_substring0 (p : ascii -> bool) (n : nat) (s : string) :
  todos p s = true -> todos p (substring 0 n s) = true.
Proof.
  revert s. induction n as [|n IH]; intros [|c s] H; cbn in *; try reflexivity.
  apply andb_true_iff in H as [Hc Hs]. now rewrite Hc, (IH s Hs).
Qed.

Lemma comprimento_app (a b : string) :
  String.length (a +:+ b) = (String.length a + String.length b)%nat.
Proof. induction a as [|c a IH]; simpl; [reflexivity|now rewrite IH]. Qed.

(** ** Sheet names of the workbook written *)

Definition permitido (c : ascii) : bool := negb (Marco.char_proibido c).

Lemma todos_trocar (s : string) : todos permitido (Marco.trocar_proibidos s) = true.
Proof.
  induction s as [|c s IH]; [reflexivity|].
  cbn [Marco.trocar_proibidos todos]. rewrite IH, andb_true_r.
  unfold permitido. destruct (Marco.char_proibido c) eqn:E; [reflexivity|now rewrite E].
Qed.

Lemma trocar_permitidos (s : string) :
  todos permitido s = true -> Marco.trocar_proibidos s = s.
Proof.
  induction s as [|c s IH]; [reflexivity|].
  cbn [Marco.trocar_proibidos todos]. intros H.
  apply andb_true_iff in H as [Hc Hs]. rewrite (IH Hs).
  unfold permitido in Hc. apply negb_true_iff in Hc. now rewrite Hc.
Qed.

Lemma todos_rstrip (p : ascii -> bool) (s : string) :
  todos p s = true -> todos p (Marco.rstrip_pontos s) = true.
Proof.
  induction s as [|c s IH]; [reflexivity|].
  cbn [Marco.rstrip_pontos todos]. intros H.
  apply andb_true_iff in H as [Hc Hs].
  destruct (Ascii.eqb c "." && String.eqb (Marco.rstrip_pontos s) ""); [reflexivity|].
  cbn [todos]. now rewrite Hc, (IH Hs).
Qed.

Lemma length_rstrip (s : string) :
  (String.length (Marco.rstrip_pontos s) <= String.length s)%nat.
Proof.
  induction s as [|c s IH]; cbn [Marco.rstrip_pontos]; [reflexivity|].
  destruct (Ascii.eqb c "." && String.eqb (Marco.rstrip_pontos s) ""); cbn; lia.
Qed.

(** X3.  A sanitized sheet name has at most 31 characters and none of the
    characters [: \ / ? * [ ]]; a name that has none of them, does not end
    in a period and is short enough is left as it is. *)
Theorem sanitize_sheet_name_is_valid (nome : string) :
  (String.length (Marco._sanitize_sheet_name nome) <= 31)%nat /\
  todos permitido (Marco._sanitize_sheet_name nome) = true /\
  (todos permitido nome = true -> Marco.rstrip_pontos nome = nome ->
   (String.length nome <= 31)%nat -> Marco._sanitize_sheet_name nome = nome).
Proof.
  unfold Marco._sanitize_sheet_name. split; [apply length_substring0|]. split.
  - apply todos_substring0, todos_rstrip, todos_trocar.
  - intros Hp Hr Hl. rewrite (trocar_permitidos nome Hp), Hr.
    now apply substring0_tudo.
Qed.

Lemma sanitize_sheet_name_is_valid_witness :
  Marco._sanitize_sheet_name "Obra_A.xlsx" = "Obra_A.xlsx".
Proof.
  destruct (sanitize_sheet_name_is_valid "Obra_A.xlsx") as (_ & _ & H).
  apply H; [reflexivity|reflexivity|vm_compute; lia].
Defined.

(** X4.  A shortened file name has at most [max_chars] characters when
    [max_chars] is at least 3: a name that fits is kept, a longer one is cut
    to its first [max_chars - 3] characters followed by three periods.  The
    sheet name made of it for the per-file tab has at most 16 characters. *)
Theorem shorten_filename_fits (fn : string) (max_chars : nat) :
  (3 <= max_chars)%nat ->
  (String.length (Marco._shorten_filename fn max_chars) <= max_chars)%nat /\
  ((String.length fn <= max_chars)%nat -> Marco._shorten_filename fn max_chars = fn) /\
  ((max_chars < String.length fn)%nat ->
   Marco._shorten_filename fn max_chars = substring 0 (max_chars - 3) fn +:+ "...") /\
  (String.length (Marco._sanitize_sheet_name (Marco._shorten_filename fn 16)) <= 16)%nat.
Proof.
  intros Hm.
  assert (Hcut : forall m, (3 <= m)%nat -> Marco.ate (Z.of_nat m - 3) fn = substring 0 (m - 3) fn).
  { intros m H. unfold Marco.ate.
    replace (Z.of_nat m - 3 <? 0)%Z with false by (symmetry; apply Z.ltb_ge; lia).
    f_equal. lia. }
  assert (Hlen : forall m, (3 <= m)%nat ->
                           (String.length (Marco._shorten_filename fn m) <= m)%nat).
  { intros m H. unfold Marco._shorten_filename.
    destruct (String.length fn <=? m)%nat eqn:E; [now apply Nat.leb_le|].
    rewrite (Hcut m H), comprimento_app. pose proof (length_substring0 (m - 3) fn). cbn. lia. }
  split; [now apply Hlen|]. split; [|split].
  - intros H. unfold Marco._shorten_filename. apply Nat.leb_le in H. now rewrite H.
  - intros H. unfold Marco._shorten_filename.
    replace (String.length fn <=? max_chars)%nat with false
      by (symmetry; apply Nat.leb_gt; exact H).
    now rewrite (Hcut max_chars Hm).
  - unfold Marco._sanitize_sheet_name.
    set (s := Marco._shorten_filename fn 16).
    assert (Hs : (String.length s <= 16)%nat) by (apply Hlen; lia).
    assert (Ht : String.length (Marco.trocar_proibidos s) = String.length s).
    { clearbody s. clear. induction s as [|c s IH]; cbn; [reflexivity|now rewrite IH]. }
    pose proof (length_rstrip (Marco.trocar_proibidos s)) as Hr.
    rewrite substring0_tudo; unfold Marco.EXCEL_SHEETNAME_MAX; lia.
Qed.

Lemma shorten_filename_fits_witness :
  Marco._shorten_filename "Cronograma_Obra_A.xlsx" 16 = "Cronograma_Ob...".
Proof.
  destruct (shorten_filename_fits "Cronograma_Obra_A.xlsx" 16) as (_ & _ & H & _).
  - lia.
  - rewrite H; [reflexivity|vm_compute; lia].
Defined.

(** ** Column labels of the milestone report *)

Lemma dict_get_In {V : Type} (d : list (string * V)) (k : string) (v : V) :
  dict_get d k = Some v -> In v (map snd d).
Proof.
  induction d as [|[k' v'] d IH]; cbn; [discriminate|].
  destruct (String.eqb k' k); [intros [= ->]; now left|intros H; right; now apply IH].
Qed.

Lemma renomear_canonico (c : string) :
  In c (map snd Marco.canon_map) -> Marco.renomear c = c.
Proof.
  intros H. cbn in H.
  repeat (destruct H as [<-|H]; [vm_compute; reflexivity|]). destruct H.
Qed.

Lemma renomear_idem (h : string) : Marco.renomear (Marco.renomear h) = Marco.renomear h.
Proof.
  destruct (dict_get Marco.canon_map (Marco._strip_accents_upper h)) as [c|] eqn:E.
  - assert (Hr : Marco.renomear h = c) by (unfold Marco.renomear; now rewrite E).
    rewrite Hr. apply renomear_canonico. exact (dict_get_In _ _ _ E).
  - assert (Hr : Marco.renomear h = h) by (unfold Marco.renomear; now rewrite E).
    now rewrite !Hr.
Qed.

(** X5.  Normalising the column labels twice is the same as normalising
    them once: every canonical name is mapped to itself. *)
Theorem normalize_columns_idempotent (df : Marco.Folha) :
  Marco._normalize_columns (Marco._normalize_columns df) = Marco._normalize_columns df.
Proof.
  unfold Marco._normalize_columns.
  destruct (Marco.vazia df) eqn:E; [now rewrite E|].
  assert (E' : Marco.vazia {| Marco.colunas := map Marco.renomear (Marco.colunas df);
                              Marco.registros := Marco.registros df |} = false).
  { unfold Marco.vazia in *. cbn [Marco.colunas Marco.registros].
    destruct (Marco.colunas df); [discriminate|]. exact E. }
  rewrite E'. cbn [Marco.colunas Marco.registros]. f_equal.
  rewrite map_map. apply map_ext. intros h. apply renomear_idem.
Qed.

(** ** Grouping keys of a curve *)

(** X6.  The keys of a curve are those of [IdEmpreendimento], [Obra] and
    [SimulacaoId] that the table has, in this order, and [IdEmpreendimento]
    alone when it has none of them; the treated table has all three. *)
Theorem deduzir_chaves_curva_spec (cols : list string) :
  Curvas._deduzir_chaves_curva cols
  = match List.filter (fun c => pertence c cols)
                      ["IdEmpreendimento"; "Obra"; "SimulacaoId"] with
    | [] => ["IdEmpreendimento"]
    | presentes => presentes
    end /\
  Curvas._deduzir_chaves_curva Curvas.CURVE_REQUIRED_COLS
  = ["IdEmpreendimento"; "Obra"; "SimulacaoId"].
Proof.
  split; [|vm_compute; reflexivity].
  unfold Curvas._deduzir_chaves_curva. cbn [List.find List.filter forallb].
  destruct (pertence "IdEmpreendimento" cols), (pertence "Obra" cols),
    (pertence "SimulacaoId" cols); reflexivity.
Qed.

End NomesFacts.

(* ====================================================================== *)
(** * The report pipelines: headers, durations, batches, order and cache *)
(* ====================================================================== *)

Module Relatorios.
Import PyNum Texto Numeros Fechamento Tabela Curvas.
Import PipelineFacts LeituraFacts MarcoFacts.
Local Open Scope string_scope.

(** ** Sheets and batches of the examples *)

Definition linha_exemplo : list valor :=
  [VStr "E1"; VStr "M1"; VStr "2026-5"; VStr "10,5"; VStr "1"; VStr "2";
   VStr "50%"; VStr "100%"; VStr "Obra A"; VStr "S1"].

(** A curve sheet whose first header is in lower case, with padding. *)
Definition folha_minuscula : DataFrame :=
  {| columns := [" idempreendimento "; "IdModulo"; "DataReferencia"; "VPCurva";
                 "PesoModulo"; "Unidades"; "VPModulo"; "VPObra"; "Obra";
                 "SimulacaoId"];
     linhas := [linha_exemplo] |}.

(** The same sheet with the header in its exact spelling, with padding. *)
Definition folha_espacos : DataFrame :=
  {| columns := [" IdEmpreendimento "; "IdModulo"; "DataReferencia"; "VPCurva";
                 "PesoModulo"; "Unidades"; "VPModulo"; "VPObra"; "Obra";
                 "SimulacaoId"];
     linhas := [linha_exemplo] |}.

Definition data (y m d : Z) : Marco.Data :=
  {| Marco.year := y; Marco.month := m; Marco.day := d |}.

(** A schedule of the works [obras]: for each, a foundation row that starts
    on [fundacao] and a physical-end row that ends on [fim]. *)
Definition cronograma (obras : list string) (fundacao fim : Marco.Data) : Marco.Folha :=
  {| Marco.colunas := ["Nome"; Marco.Inicio; Marco.Termino; "Obra"];
     Marco.registros :=
       flat_map (fun obra =>
                   [[Marco.CTexto Marco.Fundacao; Marco.CData fundacao;
                     Marco.CData fundacao; Marco.CTexto obra];
                    [Marco.CTexto Marco.Fim_Fisico; Marco.CData fim;
                     Marco.CData fim; Marco.CTexto obra]])
                obras |}.

(** A [to_datetime] that finds no date in a column of text. *)
Definition sem_datas (col : list Marco.celula) : list (option Marco.Data) :=
  map (fun _ => None) col.

Definition legivel (nome : string) : Upload DataFrame :=
  {| name := nome; conteudo := Ok [("Plan1", folha_espacos)] |}.

Definition corrompido (nome : string) : Upload DataFrame :=
  {| name := nome; conteudo := Excecao "File is not a zip file" |}.

Definition lote_com_falha : list (Upload DataFrame) :=
  [legivel "a.xlsx"; corrompido "b.xlsx"; legivel "c.xlsx"].

(** A workbook of the milestone report: one sheet, one row. *)
Definition marco_de (nome : string) : Upload Marco.Folha :=
  {| name := nome;
     conteudo := Ok [("Plan1", {| Marco.colunas := ["Nome"];
                                  Marco.registros := [[Marco.CTexto "Estrutura"]] |})] |}.

Definition mil_arquivos : list (Upload Marco.Folha) := repeat (marco_de "a.xlsx") 1000.

Definition linha_de (nome : string) : list Marco.celula :=
  [Marco.CTexto nome; Marco.CVazia; Marco.CTexto "Estrutura"; Marco.CVazia;
   Marco.CVazia; Marco.CVazia; Marco.CVazia; Marco.CVazia; Marco.CVazia;
   Marco.CVazia; Marco.CVazia].

Definition tabela_de (linhas : list (list Marco.celula)) : Marco.Folha :=
  {| Marco.colunas := Marco.TARGET_COLS; Marco.registros := linhas |}.

(** A parquet writer that accepts every table. *)
Definition grava_sempre (df : DataFrame) : PP.escrita := PP.Gravou.

(** A cache directory that holds one readable entry. *)
Definition cache_com_a : PP.cache :=
  <[ "a.xlsx" := PP.Legivel folha_espacos ]> empty.

(** A treated row of the curve of work [Obra A]. *)
Definition curva_de (vp : option float) : Curva :=
  {| IdEmpreendimento := "E1"; IdModulo := "M1"; DataReferencia := "01/05/2026";
     VPCurva := None; PesoModulo := None; Unidades := None; VPModulo := None;
     VPObra := vp; Obra := "Obra A"; SimulacaoId := "S1" |}.

Definition duas_linhas : list Curva :=
  [curva_de (Some (literal 1 4)); curva_de (Some (literal 1 2))].

(** ** Headers of the curve report *)




(** ** Duration of a work *)

(** C6.  On a sheet whose rows all belong to one work, every row gets the
    months from the earliest start of a foundation row to the latest end of
    a physical-end row: (end.year - start.year) * 12 + (end.month -
    start.month), one less when end.day < start.day, and no less than zero;
    or a missing value when no foundation row has a start date or no
    physical-end row has an end date.  The dates are those of the columns
    after [_convert_excel_dates].  On a sheet that holds rows of two works,
    or rows of a work and rows without one, the call raises, whatever the
    dates are.  The two examples give 5 and 6 months on a sheet of one
    work. *)
Theorem C6_duration_is_computed_for_one_work_and_raises_for_two
        (to_datetime : list Marco.celula -> list (option Marco.Data)) :
  (forall (df : Marco.Folha) (s : string),
      Marco.registros df <> [] ->
      Marco.ocorrencias "Obra" (Marco.colunas df) = 1%nat ->
      Marco.ocorrencias "Nome" (Marco.colunas df) = 1%nat ->
      (Marco.ocorrencias Marco.Inicio (Marco.colunas df) <= 1)%nat ->
      (Marco.ocorrencias Marco.Termino (Marco.colunas df) <= 1)%nat ->
      Forall (fun c => c = Marco.CTexto s) (Marco.coluna df "Obra") ->
      Marco.dtype_object (Marco.coluna df "Nome") = true ->
      let inicios :=
        Marco.onde (Marco._convert_excel_dates
                      to_datetime (Marco.coluna_ou_vazia df Marco.Inicio))
                   (map (Marco.str_contains Marco.Fundacao) (Marco.coluna df "Nome")) in
      let terminos :=
        Marco.onde (Marco._convert_excel_dates
                      to_datetime (Marco.coluna_ou_vazia df Marco.Termino))
                   (map (Marco.str_contains Marco.Fim_Fisico) (Marco.coluna df "Nome")) in
      exists v,
        Marco._calculate_work_duration to_datetime df
        = Ok (Marco.com_coluna df Marco.Duracao_obra
                               (map (fun _ => v) (Marco.registros df))) /\
        ((exists f t,
             In (Some f) inicios /\
             (forall d, In (Some d) inicios -> Marco.antes d f = false) /\
             In (Some t) terminos /\
             (forall d, In (Some d) terminos -> Marco.antes t d = false) /\
             v = Marco.CInteiro
                   (Z.max 0 ((Marco.year t - Marco.year f) * 12
                             + (Marco.month t - Marco.month f)
                             - (if (Marco.day t <? Marco.day f)%Z then 1 else 0))))
         \/ (((forall d, In d inicios -> d = None) \/
              (forall d, In d terminos -> d = None)) /\
             v = Marco.CVazia))) /\
  (forall (df : Marco.Folha) (s t : string),
      pertence "Obra" (Marco.colunas df) = true ->
      In (Marco.CTexto s) (Marco.coluna df "Obra") ->
      In (Marco.CTexto t) (Marco.coluna df "Obra") ->
      s <> t ->
      exists e, Marco._calculate_work_duration to_datetime df = Excecao e) /\
  (forall (df : Marco.Folha) (s : string),
      pertence "Obra" (Marco.colunas df) = true ->
      In (Marco.CTexto s) (Marco.coluna df "Obra") ->
      In Marco.CVazia (Marco.coluna df "Obra") ->
      exists e, Marco._calculate_work_duration to_datetime df = Excecao e) /\
  Marco.meses (Some (data 2024 1 15)) (Some (data 2024 7 10)) = Marco.CInteiro 5 /\
  Marco.meses (Some (data 2024 1 10)) (Some (data 2024 7 15)) = Marco.CInteiro 6 /\
  Marco.meses None (Some (data 2024 7 15)) = Marco.CVazia /\
  Marco.meses (Some (data 2024 1 10)) None = Marco.CVazia /\
  Marco._calculate_work_duration
    to_datetime (cronograma ["Obra A"] (data 2024 1 15) (data 2024 7 10))
  = Ok (Marco.com_coluna (cronograma ["Obra A"] (data 2024 1 15) (data 2024 7 10))
                         Marco.Duracao_obra [Marco.CInteiro 5; Marco.CInteiro 5]) /\
  Marco._calculate_work_duration
    to_datetime (cronograma ["Obra A"] (data 2024 1 10) (data 2024 7 15))
  = Ok (Marco.com_coluna (cronograma ["Obra A"] (data 2024 1 10) (data 2024 7 15))
                         Marco.Duracao_obra [Marco.CInteiro 6; Marco.CInteiro 6]) /\
  Marco._calculate_work_duration
    to_datetime (cronograma ["Obra A"; "Obra B"] (data 2024 1 15) (data 2024 7 10))
  = Excecao "IndexingError: Unalignable boolean Series provided as indexer (index of the boolean Series and of the indexed object do not match).".
Proof.
  split; [|split; [|split; [|repeat split]]].
  - intros df s Hr Ho Hn Hi Ht Hs Hobj inicios terminos.
    rewrite (calc_uma_obra to_datetime df s Hr Ho Hn Hi Ht Hs Hobj).
    fold inicios terminos.
    pose proof (minimo_spec inicios) as Hmin.
    pose proof (maximo_spec terminos) as Hmax.
    exists (Marco.meses (Marco.minimo inicios) (Marco.maximo terminos)).
    split; [reflexivity|].
    destruct (Marco.minimo inicios) as [f|].
    + destruct (Marco.maximo terminos) as [t|].
      * left. exists f, t. destruct Hmin as [Hf1 Hf2], Hmax as [Ht1 Ht2].
        repeat split; try assumption.
        unfold Marco.meses. f_equal.
        destruct (Marco.day t <? Marco.day f)%Z; lia.
      * right. split; [right; exact Hmax|reflexivity].
    + right. split; [left; exact Hmin|reflexivity].
  - intros df s t. apply calc_duas_obras.
  - intros df s. apply calc_obra_em_falta.
Qed.

Lemma C6_duration_is_computed_for_one_work_and_raises_for_two_witness :
  (exists v,
      Marco._calculate_work_duration
        sem_datas (cronograma ["Obra A"] (data 2024 1 15) (data 2024 7 10))
      = Ok (Marco.com_coluna (cronograma ["Obra A"] (data 2024 1 15) (data 2024 7 10))
                             Marco.Duracao_obra [v; v])) /\
  (exists e,
      Marco._calculate_work_duration
        sem_datas (cronograma ["Obra A"; "Obra B"] (data 2024 1 15) (data 2024 7 10))
      = Excecao e).
Proof.
  destruct (C6_duration_is_computed_for_one_work_and_raises_for_two sem_datas)
    as (H1 & H2 & _).
  split.
  - destruct (H1 (cronograma ["Obra A"] (data 2024 1 15) (data 2024 7 10)) "Obra A")
      as (v & Hv & _).
    + vm_compute. discriminate.
    + vm_compute. reflexivity.
    + vm_compute. reflexivity.
    + vm_compute. lia.
    + vm_compute. lia.
    + vm_compute. repeat constructor.
    + vm_compute. reflexivity.
    + exists v. exact Hv.
  - apply (H2 (cronograma ["Obra A"; "Obra B"] (data 2024 1 15) (data 2024 7 10))
              "Obra A" "Obra B").
    + vm_compute. reflexivity.
    + vm_compute. auto.
    + vm_compute. auto 6.
    + discriminate.
Defined.

(** ** A workbook that cannot be read *)

(** C7.  The reader of the curve report has no handler around the reading
    call: one unreadable workbook among the files it takes makes the whole
    call raise, and it returns a mapping only when every workbook is
    readable.  The reader of the wall report does what the specification asks: it
    always returns, with one warning per unreadable workbook, with every
    readable workbook present, and with nothing under a name that only
    unreadable workbooks carry. *)
Theorem C7_unreadable_workbook_aborts_the_curve_reader :
  (forall (files : list (Upload DataFrame)) (up : Upload DataFrame) (e : string),
      In up (firstn Curvas.MAX_FILES files) -> conteudo up = Excecao e ->
      exists e', ler_varios_excels_curvas files = Excecao e') /\
  (forall (files : list (Upload DataFrame)),
      (forall up, In up (firstn Curvas.MAX_FILES files) -> exists xls, conteudo up = Ok xls) ->
      exists dfs, ler_varios_excels_curvas files = Ok dfs) /\
  (forall (T : Type) (files : list (Upload T)),
      snd (Parede.ler_todas_linhas_excels files)
      = map aviso_de (List.filter ilegivel (firstn Parede.MAX_FILES files)) /\
      (forall up xls,
          In up (firstn Parede.MAX_FILES files) -> conteudo up = Ok xls ->
          exists tabelas,
            dict_get (fst (Parede.ler_todas_linhas_excels files)) (name up)
            = Some tabelas) /\
      (forall k,
          (forall up, In up (firstn Parede.MAX_FILES files) ->
                      ilegivel up = false -> name up <> k) ->
          dict_get (fst (Parede.ler_todas_linhas_excels files)) k = None)) /\
  ler_varios_excels_curvas lote_com_falha = Excecao "File is not a zip file" /\
  Parede.ler_todas_linhas_excels lote_com_falha
  = ([("a.xlsx", [("Plan1", folha_espacos)]); ("c.xlsx", [("Plan1", folha_espacos)])],
     ["Falha ao ler 'b.xlsx': File is not a zip file"]).
Proof.
  split; [|split; [|split; [|split]]].
  - intros files up e Hin He. unfold ler_varios_excels_curvas.
    exact (ler_curvas_de_falha _ [] up e Hin He).
  - intros files H. unfold ler_varios_excels_curvas.
    exact (ler_curvas_de_ok _ [] H).
  - intros T files. unfold Parede.ler_todas_linhas_excels. split.
    + now rewrite parede_avisos.
    + split.
      * intros up xls Hin Hok. exact (parede_presente _ _ up xls Hin Hok).
      * intros k Hk. now rewrite (parede_fora _ ([], []) k Hk).
  - vm_compute. reflexivity.
  - vm_compute. reflexivity.
Qed.

Lemma C7_unreadable_workbook_aborts_the_curve_reader_witness :
  (exists e', ler_varios_excels_curvas lote_com_falha = Excecao e') /\
  (exists tabelas,
      dict_get (fst (Parede.ler_todas_linhas_excels lote_com_falha)) "c.xlsx"
      = Some tabelas).
Proof.
  destruct C7_unreadable_workbook_aborts_the_curve_reader as (H1 & _ & H3 & _).
  split.
  - apply (H1 lote_com_falha (corrompido "b.xlsx") "File is not a zip file").
    + vm_compute. auto.
    + reflexivity.
  - destruct (H3 DataFrame lote_com_falha) as (_ & H & _).
    apply (H (legivel "c.xlsx") [("Plan1", folha_espacos)]).
    + vm_compute. auto.
    + reflexivity.
Defined.

(** ** More files than the maximum *)

(** C8, where it fails: with 1001 workbooks the processing of the milestone
    report returns the table of the first 1000, the same as for those 1000
    alone; the last workbook, [z.xlsx], leaves no row. *)
Lemma C8_batch_above_maximum_is_truncated_not_rejected :
  List.length (mil_arquivos ++ [marco_de "z.xlsx"]) = 1001%nat /\
  Marco.processar_arquivos sem_datas (seq 0 1000) (mil_arquivos ++ [marco_de "z.xlsx"])
  = Ok (tabela_de (repeat (linha_de "a.xlsx") 1000)) /\
  Marco.processar_arquivos sem_datas (seq 0 1000) mil_arquivos
  = Ok (tabela_de (repeat (linha_de "a.xlsx") 1000)).
Proof. vm_compute. repeat split. Qed.

(** C8, amended.  Only the screen of the curve report rejects a batch of
    more files than its maximum, 300.  The processing functions reject
    nothing: the readers of the curve report and of the PP report and the
    processing of the milestone report, with maxima of 300, 1000 and 1000,
    take the first [MAX_FILES] files and give for a longer batch what they
    give for those files alone. *)
Theorem C8_only_the_curve_screen_rejects_and_readers_truncate :
  Curvas.MAX_FILES = 300%nat /\ PP.MAX_FILES = 1000%nat /\ Marco.MAX_FILES = 1000%nat /\
  (forall files : list (Upload DataFrame),
      (Curvas.MAX_FILES < List.length files)%nat -> render_tab files = Rejeitada) /\
  (forall files : list (Upload DataFrame),
      files <> [] -> (List.length files <= Curvas.MAX_FILES)%nat ->
      render_tab files = Lida (ler_varios_excels_curvas files)) /\
  (forall files extra : list (Upload DataFrame),
      List.length files = Curvas.MAX_FILES ->
      ler_varios_excels_curvas (files ++ extra) = ler_varios_excels_curvas files) /\
  (forall (to_parquet : DataFrame -> PP.escrita) (disco : PP.cache)
          (files extra : list (Upload DataFrame)),
      List.length files = PP.MAX_FILES ->
      PP.ler_varios_excels_pp to_parquet disco (files ++ extra)
      = PP.ler_varios_excels_pp to_parquet disco files) /\
  (forall (to_datetime : list Marco.celula -> list (option Marco.Data))
          (ordem : list nat) (files extra : list (Upload Marco.Folha)),
      List.length files = Marco.MAX_FILES ->
      Marco.processar_arquivos to_datetime ordem (files ++ extra)
      = Marco.processar_arquivos to_datetime ordem files).
Proof.
  split; [reflexivity|]. split; [reflexivity|]. split; [reflexivity|].
  split; [|split; [|split; [|split]]].
  - intros files H. unfold render_tab.
    destruct files as [|f files]; [cbn in H; lia|].
    apply Nat.ltb_lt in H. now rewrite H.
  - intros files Hne H. unfold render_tab.
    destruct files as [|f files]; [congruence|].
    apply Nat.ltb_ge in H. now rewrite H.
  - intros files extra H. unfold ler_varios_excels_curvas.
    now rewrite (firstn_app_exato _ files extra H), <- H, firstn_all.
  - intros to_parquet disco files extra H. unfold PP.ler_varios_excels_pp.
    now rewrite (firstn_app_exato _ files extra H), <- H, firstn_all.
  - intros to_datetime ordem files extra H. now apply processar_trunca.
Qed.

Lemma C8_only_the_curve_screen_rejects_and_readers_truncate_witness :
  render_tab (repeat (legivel "a.xlsx") 301) = Rejeitada /\
  Marco.processar_arquivos sem_datas (seq 0 1000) (mil_arquivos ++ [marco_de "z.xlsx"])
  = Marco.processar_arquivos sem_datas (seq 0 1000) mil_arquivos.
Proof.
  destruct C8_only_the_curve_screen_rejects_and_readers_truncate
    as (_ & _ & _ & H1 & _ & _ & _ & H2).
  split.
  - apply H1. vm_compute. lia.
  - apply H2. vm_compute. reflexivity.
Defined.

(** ** Row order of the consolidated tables *)

(** C9, where it fails: two workbooks of one row each, processed by
    workers that finish in the order of submission and in the opposite
    order, give the two rows in opposite orders. *)
Lemma C9_completion_order_shows_in_the_milestone_table :
  Marco.processar_arquivos sem_datas [0; 1]%nat [marco_de "a.xlsx"; marco_de "b.xlsx"]
  = Ok (tabela_de [linha_de "a.xlsx"; linha_de "b.xlsx"]) /\
  Marco.processar_arquivos sem_datas [1; 0]%nat [marco_de "a.xlsx"; marco_de "b.xlsx"]
  = Ok (tabela_de [linha_de "b.xlsx"; linha_de "a.xlsx"]).
Proof. vm_compute. split; reflexivity. Qed.

(** C9, amended.  The stacked table of the curve report, which is built
    without parallel workers, is in the order of its sort key
    ([SimulacaoId], [IdEmpreendimento], [Obra], [IdModulo],
    [DataReferencia]) with rows of equal keys in the order they were
    stacked in, and that order is fixed by the rows alone: two stackings
    that hold, for every key, the same rows in the same order give the same
    table.  The table of the milestone report is not sorted: two runs whose
    workers complete in different orders both raise, or give the same labels
    and the same rows up to their order. *)
Theorem C9_curve_table_order_is_fixed_and_milestone_rows_follow_completion :
  (forall (soma : list float -> float) (dfs : list (string * DataFrame)) r,
      empilhar_curvas soma dfs = Ok r -> StronglySorted em_ordem (fst (fst r))) /\
  (forall l : list (string * Curva),
      Permutation (sort_values l) l /\
      StronglySorted em_ordem (sort_values l) /\
      forall k, com_chave k (sort_values l) = com_chave k l) /\
  (forall l l' : list (string * Curva),
      (forall k, com_chave k l = com_chave k l') -> sort_values l = sort_values l') /\
  (forall (to_datetime : list Marco.celula -> list (option Marco.Data))
          (files : list (Upload Marco.Folha)) (o1 o2 : list nat),
      Permutation o1 o2 ->
      mesma_sorte mesmas_linhas
                  (Marco.processar_arquivos to_datetime o1 files)
                  (Marco.processar_arquivos to_datetime o2 files)).
Proof.
  split; [|split; [|split]].
  - intros soma dfs r. apply empilhar_sorted.
  - intros l. split; [apply sort_values_perm|].
    split; [apply sort_values_sorted|]. intros k. apply sort_values_stable.
  - apply sort_values_determinado.
  - intros to_datetime files o1 o2. apply processar_perm.
Qed.

Lemma C9_curve_table_order_is_fixed_and_milestone_rows_follow_completion_witness :
  mesma_sorte mesmas_linhas
              (Marco.processar_arquivos sem_datas [0; 1]%nat
                                        [marco_de "a.xlsx"; marco_de "b.xlsx"])
              (Marco.processar_arquivos sem_datas [1; 0]%nat
                                        [marco_de "a.xlsx"; marco_de "b.xlsx"]).
Proof.
  destruct C9_curve_table_order_is_fixed_and_milestone_rows_follow_completion
    as (_ & _ & _ & H).
  apply H. apply perm_swap.
Defined.

(** ** The parquet cache *)

(** C10.  When the cache holds a readable entry under the file name, the
    call returns the cached table under the key of the file name followed
    by ["::Planilha1"], whatever the bytes are, and leaves the cache as it
    is.  So after a first upload that was read from a sheet of any name and
    cached, a second upload under the same name gives the table of the
    first, under the sheet name [Planilha1]. *)
Theorem C10_cache_hit_ignores_the_bytes_and_names_the_sheet_Planilha1
        (to_parquet : DataFrame -> PP.escrita) (file_name : string) :
  (forall (disco : PP.cache) (df : DataFrame)
          (file_bytes : resultado (list (string * DataFrame))),
      disco !! file_name = Some (PP.Legivel df) ->
      PP._read_excel_with_cache to_parquet disco file_bytes file_name
      = (Ok [(file_name +:+ "::Planilha1", df)], disco)) /\
  (forall (disco : PP.cache) (sheet : string) (df1 : DataFrame)
          (resto : list (string * DataFrame))
          (outro : resultado (list (string * DataFrame))),
      disco !! file_name = None ->
      to_parquet (PP.usecols df1) = PP.Gravou ->
      let primeiro :=
        PP._read_excel_with_cache to_parquet disco (Ok ((sheet, df1) :: resto)) file_name in
      fst primeiro = Ok [(file_name +:+ "::" +:+ sheet, PP.usecols df1)] /\
      PP._read_excel_with_cache to_parquet (snd primeiro) outro file_name
      = (Ok [(file_name +:+ "::Planilha1", PP.usecols df1)], snd primeiro)).
Proof.
  split.
  - intros disco df file_bytes H. now apply cache_hit.
  - intros disco sheet df1 resto outro Hd Hw primeiro. subst primeiro.
    rewrite (cache_miss to_parquet disco file_name sheet df1 resto (or_introl Hd) Hw).
    cbn [fst snd]. split; [reflexivity|].
    apply cache_hit. apply lookup_insert_eq.
Qed.

Lemma C10_cache_hit_ignores_the_bytes_and_names_the_sheet_Planilha1_witness :
  PP._read_excel_with_cache grava_sempre
    cache_com_a
    (Ok [("Curvas", folha_minuscula)]) "a.xlsx"
  = (Ok [("a.xlsx::Planilha1", folha_espacos)],
     cache_com_a).
Proof.
  destruct (C10_cache_hit_ignores_the_bytes_and_names_the_sheet_Planilha1
              grava_sempre "a.xlsx") as [H _].
  apply (H cache_com_a folha_espacos).
  apply lookup_insert_eq.
Defined.

(** ** The closure correction on a table *)

Lemma correction_changes_only_VPObra_witness :
  List.length (_ajustar_vp_obra_com_3_decimais py_sum duas_linhas) = 2%nat /\
  exists v, _ajustar_vp_obra_com_3_decimais py_sum duas_linhas !! 1%nat
            = Some (com_VPObra (curva_de (Some (literal 1 2))) v).
Proof.
  destruct (CurvasFacts.correction_changes_only_VPObra py_sum duas_linhas) as [H1 H2].
  split; [exact H1|]. apply H2. reflexivity.
Defined.

Lemma correction_is_groupwise_witness :
  valores_vp (_ajustar_vp_obra_com_3_decimais py_sum duas_linhas)
             (CurvasFacts.posicoes CurvasFacts.chaves_curva
                (chave CurvasFacts.chaves_curva (curva_de (Some (literal 1 4))))
                duas_linhas)
  = map Some (ajustar_grupo py_sum
                (valores_vp duas_linhas
                   (CurvasFacts.posicoes CurvasFacts.chaves_curva
                      (chave CurvasFacts.chaves_curva (curva_de (Some (literal 1 4))))
                      duas_linhas))).
Proof.
  apply (CurvasFacts.correction_is_groupwise py_sum duas_linhas 0
           (curva_de (Some (literal 1 4)))).
  reflexivity.
Defined.

End Relatorios.
